(** * Well Analysis Assistant: the dialogue core of [app.py]

    A shallow embedding of the chatbot's response generator
    ([generate_response] and the formatters it calls) and of the chat
    turn that drives it, with the properties its specification states.

    Python values are modelled as follows.
    - [str] is [string]: the UTF-8 bytes of the text.  The keywords the
      classifier looks for are ASCII, so substring search on the bytes
      and on the code points agree.
    - [float] is the kernel's binary64 [float]; [/] raises
      [ZeroDivisionError] on a zero divisor, as Python's does.
    - [str.lower] and [str.title] depend on the Unicode character
      tables; the development is parametric in them (Section variables)
      and [ascii_lower] and [ascii_title] are their restrictions to
      ASCII text, used to run the model on concrete inputs.
    - a [dict] whose order matters (the extracted parameters) is an
      association list in insertion order; the report's fixed-shape
      dictionaries are records. *)

From Stdlib Require Import ZArith QArith Qround Qabs Lqa List String Ascii Bool Lia.
From Stdlib Require Import DecimalString.
From Stdlib Require Import Floats.
Import ListNotations.

Local Open Scope string_scope.
Local Open Scope Z_scope.

(** ** Exceptions *)

Inductive exn : Type :=
| ZeroDivisionError.

Inductive result (A : Type) : Type :=
| Ok (a : A)
| Raise (e : exn).

Arguments Ok {A} a.
Arguments Raise {A} e.

Definition bind {A B : Type} (c : result A) (k : A -> result B) : result B :=
  match c with
  | Ok a => k a
  | Raise e => Raise e
  end.

Notation "x <- c ;; k" := (bind c (fun x => k))
  (at level 61, c at next level, right associativity).

(** ** Strings *)

Definition nl : string := String (ascii_of_nat 10) EmptyString.
Definition dquote : string := String (ascii_of_nat 34) EmptyString.

Fixpoint starts_with (w s : string) : bool :=
  match w, s with
  | EmptyString, _ => true
  | String a w', String b s' => Ascii.eqb a b && starts_with w' s'
  | String _ _, EmptyString => false
  end.

(** [contains w s] is Python's [w in s]. *)
Fixpoint contains (w s : string) : bool :=
  starts_with w s ||
  match s with
  | EmptyString => false
  | String _ s' => contains w s'
  end.

(** [any_in words s] is [any(word in s for word in words)]. *)
Definition any_in (words : list string) (s : string) : bool :=
  existsb (fun word => contains word s) words.

(** [replace_char a b s] is [s.replace(a, b)] for one-character [a], [b]. *)
Fixpoint replace_char (a b : ascii) (s : string) : string :=
  match s with
  | EmptyString => EmptyString
  | String c s' => String (if Ascii.eqb c a then b else c) (replace_char a b s')
  end.

Definition is_upper (c : ascii) : bool :=
  let n := nat_of_ascii c in (65 <=? n)%nat && (n <=? 90)%nat.

Definition is_lower (c : ascii) : bool :=
  let n := nat_of_ascii c in (97 <=? n)%nat && (n <=? 122)%nat.

Definition to_lower (c : ascii) : ascii :=
  if is_upper c then ascii_of_nat (nat_of_ascii c + 32) else c.

Definition to_upper (c : ascii) : ascii :=
  if is_lower c then ascii_of_nat (nat_of_ascii c - 32) else c.

(** [str.lower] on ASCII text. *)
Fixpoint ascii_lower (s : string) : string :=
  match s with
  | EmptyString => EmptyString
  | String c s' => String (to_lower c) (ascii_lower s')
  end.

(** [str.title] on ASCII text: a letter is upper-cased when the character
    before it is not a letter, and lower-cased otherwise. *)
Fixpoint title_from (previous_is_cased : bool) (s : string) : string :=
  match s with
  | EmptyString => EmptyString
  | String c s' =>
      if is_upper c || is_lower c
      then String (if previous_is_cased then to_lower c else to_upper c)
                  (title_from true s')
      else String c (title_from false s')
  end.

Definition ascii_title (s : string) : string := title_from false s.

Definition str_of_Z (n : Z) : string := NilZero.string_of_int (Z.to_int n).

(** ** Floats: division and conversion to text *)

(** Python's [a / b] on floats. *)
Definition truediv (a b : float) : result float :=
  if PrimFloat.eqb b 0%float then Raise ZeroDivisionError
  else Ok (PrimFloat.div a b).

Definition sign_str (s : bool) : string := if s then "-" else "".

Definition pow2Q (e : Z) : Q :=
  if 0 <=? e then inject_Z (2 ^ e) else Qmake 1 (Z.to_pos (2 ^ (- e))).

Definition pow10Q (p : Z) : Q :=
  if 0 <=? p then inject_Z (10 ^ p) else Qmake 1 (Z.to_pos (10 ^ (- p))).

(** The integer nearest to [q], ties to the even one. *)
Definition round_half_even (q : Q) : Z :=
  let f := Qfloor q in
  match Qcompare (q - inject_Z f)%Q (Qmake 1 2) with
  | Lt => f
  | Gt => f + 1
  | Eq => if Z.even f then f else f + 1
  end.

(** [format_1f x] is [format(x, ".1f")]: the exact value of [x] rounded
    to one decimal, ties to even, in fixed notation. *)
Definition format_1f (x : float) : string :=
  match Prim2SF x with
  | S754_nan => "nan"
  | S754_infinity s => sign_str s ++ "inf"
  | S754_zero s => sign_str s ++ "0.0"
  | S754_finite s m e =>
      let tenths := round_half_even (inject_Z (Zpos m * 10) * pow2Q e)%Q in
      sign_str s ++ str_of_Z (tenths / 10) ++ "." ++ str_of_Z (tenths mod 10)
  end.

(** [floor (log10 x)] for a positive [x], from the estimate [d]. *)
Fixpoint decimal_exponent (fuel : nat) (x : Q) (d : Z) : Z :=
  match fuel with
  | O => d
  | S fuel' =>
      if Qle_bool (pow10Q (d + 1)) x then decimal_exponent fuel' x (d + 1)
      else if Qle_bool (pow10Q d) x then d
      else decimal_exponent fuel' x (d - 1)
  end.

(** The integer [c] nearest to [x / 10^p] among those for which [c * 10^p]
    lies in the interval of the reals that round to the float. *)
Definition nearest_in (x low high : Q) (closed : bool) (p : Z) : option Z :=
  let y := (x * pow10Q (- p))%Q in
  let c0 := Qfloor y in
  let c1 := c0 + 1 in
  let inside c :=
    let v := (inject_Z c * pow10Q p)%Q in
    if closed then Qle_bool low v && Qle_bool v high
    else negb (Qle_bool v low) && negb (Qle_bool high v) in
  match inside c0, inside c1 with
  | true, true =>
      match Qcompare (y - inject_Z c0)%Q (inject_Z c1 - y)%Q with
      | Lt => Some c0
      | Gt => Some c1
      | Eq => Some (if Z.even c0 then c0 else c1)
      end
  | true, false => Some c0
  | false, true => Some c1
  | false, false => None
  end.

(** Shortest digits: the least number [k] of significant digits, from
    [k] up, at which some decimal rounds back to the float. *)
Fixpoint shortest_from (fuel : nat) (x low high : Q) (closed : bool)
    (d : Z) (k : Z) : Z * Z :=
  match fuel with
  | O => (0, 0)
  | S fuel' =>
      let p := d - (k - 1) in
      match nearest_in x low high closed p with
      | Some c => (c, p)
      | None => shortest_from fuel' x low high closed d (k + 1)
      end
  end.

Fixpoint strip_zeros (fuel : nat) (c p : Z) : Z * Z :=
  match fuel with
  | O => (c, p)
  | S fuel' =>
      if (c mod 10 =? 0) && negb (c =? 0) then strip_zeros fuel' (c / 10) (p + 1)
      else (c, p)
  end.

Fixpoint zeros (n : nat) : string :=
  match n with
  | O => ""
  | S n' => "0" ++ zeros n'
  end.

Definition take (n : nat) (s : string) : string := substring 0 n s.
Definition drop (n : nat) (s : string) : string :=
  substring n (String.length s - n) s.

(** The digits [ds] with the decimal point after the first [decpt] of them,
    as [repr] lays them out. *)
Definition layout_repr (ds : string) (decpt : Z) : string :=
  let k := Z.of_nat (String.length ds) in
  if (decpt <=? -4) || (16 <? decpt) then
    let e := decpt - 1 in
    let mant := if k =? 1 then ds else take 1 ds ++ "." ++ drop 1 ds in
    let digits := str_of_Z (Z.abs e) in
    mant ++ "e" ++ (if e <? 0 then "-" else "+")
         ++ (if Z.abs e <? 10 then "0" else "") ++ digits
  else if decpt <=? 0 then "0." ++ zeros (Z.to_nat (- decpt)) ++ ds
  else if k <=? decpt then ds ++ zeros (Z.to_nat (decpt - k)) ++ ".0"
  else take (Z.to_nat decpt) ds ++ "." ++ drop (Z.to_nat decpt) ds.

(** [float_repr x] is [repr(x)], which is also [str(x)] and what an
    f-string field without a format gives. *)
Definition float_repr (x : float) : string :=
  match Prim2SF x with
  | S754_nan => "nan"
  | S754_infinity s => sign_str s ++ "inf"
  | S754_zero s => sign_str s ++ "0.0"
  | S754_finite s m e =>
      let v := (inject_Z (Zpos m) * pow2Q e)%Q in
      let half := pow2Q (e - 1) in
      let below :=
        if (Zpos m =? 2 ^ 52) && (-1074 <? e) then pow2Q (e - 2) else half in
      let d0 := ((Z.log2 (Zpos m) + e) * 30103) / 100000 in
      let d := decimal_exponent 4 v d0 in
      let '(c, p) := shortest_from 17 v (v - below)%Q (v + half)%Q
                       (Z.even (Zpos m)) d 1 in
      let '(c', p') := strip_zeros 17 c p in
      let ds := str_of_Z c' in
      sign_str s ++ layout_repr ds (p' + Z.of_nat (String.length ds))
  end.

(** ** The report *)

(** A value of [extracted_parameters]: a string, a number (a boolean is
    one), or [None]. *)
Inductive PyVal : Type :=
| PyNone
| PyStr (s : string)
| PyBool (b : bool)
| PyInt (n : Z)
| PyFloat (x : float).

(** Python's truth value: [None], the empty string, [False] and zero are
    false. *)
Definition truthy (v : PyVal) : bool :=
  match v with
  | PyNone => false
  | PyStr s => negb (String.eqb s "")
  | PyBool b => b
  | PyInt n => negb (n =? 0)
  | PyFloat x => negb (PrimFloat.eqb x 0%float)
  end.

(** [str(v)], what an f-string field shows. *)
Definition py_str (v : PyVal) : string :=
  match v with
  | PyNone => "None"
  | PyStr s => s
  | PyBool b => if b then "True" else "False"
  | PyInt n => str_of_Z n
  | PyFloat x => float_repr x
  end.

(** The numbers of the nodal results are Python floats. *)
Record OperatingPoint : Type := {
  flow_rate_m3_h : float;
  wellhead_pressure_bar : float;
  bottomhole_pressure_bar : float;
  reservoir_pressure_bar : float
}.

Record PressureAnalysis : Type := {
  hydrostatic_pressure_drop_bar : float;
  friction_pressure_drop_bar : float;
  total_pressure_drop_bar : float
}.

Record FlowCharacteristics : Type := {
  reynolds_number : float;
  flow_regime : string;
  friction_factor : float;
  velocity_m_s : float
}.

Record Productivity : Type := {
  productivity_index_m3h_bar : float;
  max_flow_rate_m3_h : float;
  current_utilization_pct : float
}.

Record NodalResults : Type := {
  operating_point : OperatingPoint;
  pressure_analysis : PressureAnalysis;
  flow_characteristics : FlowCharacteristics;
  productivity : Productivity
}.

(** [nodal_analysis_results]: [status] is ["success"] with [results], or
    anything else with a [message]. *)
Inductive NodalAnalysis : Type :=
| NodalSuccess (results : NodalResults)
| NodalFailure (message : string).

Record Report : Type := {
  extracted_parameters : list (string * PyVal);
  nodal_analysis_results : NodalAnalysis;
  summary : string
}.

(** ** Fixed texts of [generate_response] *)

Definition help_getting_started : string :=
  "To get started:" ++ nl ++
  "            " ++ nl ++
  "1. Click the **Browse files** button in the sidebar  " ++ nl ++
  "2. Select a PDF well completion report  " ++ nl ++
  "3. Click **🚀 Analyze Document**  " ++ nl ++
  "4. Wait for the analysis to complete  " ++ nl ++
  "5. Ask me questions about the results!" ++ nl ++
  nl ++
  "I support standard well completion reports with tables and technical data.".

Definition explain_extraction : string :=
  "I can extract many parameters from well documents:" ++ nl ++
  nl ++
  "**Basic Info:** Well name, operation type, dates, duration  " ++ nl ++
  "**Depths:** Packer, PBR, pump intake, total depth  " ++ nl ++
  "**Equipment:** Tubing size, ESP details, completion config  " ++ nl ++
  "**Reservoir:** Temperature, fluid type, pressure  " ++ nl ++
  "**Production:** Flow rates, pressures, fluid properties  " ++ nl ++
  "**Safety:** HSE incidents, operational notes  " ++ nl ++
  nl ++
  "Upload a document to see what I can extract! 📄".

Definition explain_nodal_analysis : string :=
  "**Nodal Analysis** determines well production capacity by analyzing pressure relationships." ++ nl ++
  nl ++
  "I calculate:  " ++ nl ++
  "- **Pressure Distribution:** From reservoir to wellhead  " ++ nl ++
  "- **Flow Characteristics:** Reynolds number, flow regime, friction  " ++ nl ++
  "- **Productivity:** Current vs maximum potential  " ++ nl ++
  "- **Bottlenecks:** What's limiting production  " ++ nl ++
  nl ++
  "Upload a document and I'll perform the analysis automatically! ⚙️".

Definition echo_prefix : string := "I understand you're asking: *" ++ dquote.

Definition needs_upload_suffix : string :=
  dquote ++ "*" ++ nl ++ nl ++
  "Please upload a PDF document first so I can help you analyze it! Use the sidebar to upload. 📤".

Definition fallback_menu_suffix : string :=
  dquote ++ "*" ++ nl ++ nl ++
  "I can help you with:" ++ nl ++
  "- Show extracted parameters" ++ nl ++
  "- Explain nodal analysis results" ++ nl ++
  "- Provide optimization suggestions" ++ nl ++
  "- Identify production limitations" ++ nl ++
  "- Export the full report" ++ nl ++ nl ++
  "Try asking: **" ++ dquote ++ "What are the nodal results?" ++ dquote ++
  "** or **" ++ dquote ++ "How can we optimize production?" ++ dquote ++ "** 💡".

Definition needs_successful_for_advice : string :=
  "I need successful nodal analysis results to provide optimization advice.".

Definition needs_successful_for_limitations : string :=
  "I need successful nodal analysis results to identify limitations.".

Definition incomplete_prefix : string := "⚠️ Nodal analysis was incomplete: ".

(** ** Intents *)

Inductive Intent : Type :=
| HelpGettingStarted
| ExplainExtraction
| ExplainNodalAnalysis
| NeedsUpload
| ShowParameters
| ShowNodalDetails
| ShowSummary
| OptimizationAdvice
| LimitationAnalysis
| FallbackMenu.

(** The keyword sets in the order [generate_response] tests them. *)
Definition no_report_rules : list (list string * Intent) :=
  [ (["upload"; "how"; "start"], HelpGettingStarted);
    (["extract"; "parameter"], ExplainExtraction);
    (["nodal"; "analysis"; "calculate"], ExplainNodalAnalysis) ].

Definition report_rules : list (list string * Intent) :=
  [ (["parameter"; "extract"; "data"], ShowParameters);
    (["nodal"; "pressure"; "flow"], ShowNodalDetails);
    (["summary"; "overview"], ShowSummary);
    (["increase"; "optimize"; "improve"], OptimizationAdvice);
    (["limit"; "bottleneck"; "problem"], LimitationAnalysis) ].

(** An ordered list of (keywords, intent) pairs evaluated in sequence. *)
Fixpoint first_match (rules : list (list string * Intent)) (default : Intent)
    (lower_input : string) : Intent :=
  match rules with
  | [] => default
  | (keywords, intent) :: rest =>
      if any_in keywords lower_input then intent
      else first_match rest default lower_input
  end.

(** ** Conversation state *)

Inductive Role : Type :=
| user
| assistant.

Record Message : Type := {
  role : Role;
  content : string
}.

Record SessionState : Type := {
  messages : list Message;
  current_report : option Report;
  uploaded_file_name : option string
}.

(** ** The completion message *)

(** [d.get(key)]: the value stored under [key], if there is one. *)
Fixpoint dict_get (key : string) (d : list (string * PyVal)) : option PyVal :=
  match d with
  | [] => None
  | (k, v) :: rest => if String.eqb k key then Some v else dict_get key rest
  end.

Definition format_analysis_results (report : Report) : string :=
  let msg := "✅ **Analysis Complete!**" ++ nl ++ nl in
  let params := extracted_parameters report in
  let msg :=
    match dict_get "well_name" params with
    | Some well_name =>
        if truthy well_name
        then msg ++ "**Well:** " ++ py_str well_name ++ nl ++ nl
        else msg
    | None => msg
    end in
  let nodal := nodal_analysis_results report in
  let msg :=
    match nodal with
    | NodalSuccess results =>
        let op := operating_point results in
        let prod := productivity results in
        let msg := msg ++ "### ⚙️ Nodal Analysis Results" ++ nl ++ nl in
        let msg := msg ++ "- **Flow Rate:** " ++ float_repr (flow_rate_m3_h op) ++ " m³/h" ++ nl in
        let msg := msg ++ "- **Wellhead Pressure:** " ++ float_repr (wellhead_pressure_bar op) ++ " bar" ++ nl in
        let msg := msg ++ "- **Bottomhole Pressure:** " ++ float_repr (bottomhole_pressure_bar op) ++ " bar" ++ nl in
        let msg := msg ++ "- **Max Flow Potential:** " ++ float_repr (max_flow_rate_m3_h prod) ++ " m³/h" ++ nl in
        let msg := msg ++ "- **Current Utilization:** " ++ float_repr (current_utilization_pct prod) ++ "%" ++ nl ++ nl in
        msg
    | NodalFailure _ => msg
    end in
  let summary_text := summary report in
  let msg :=
    if negb (String.eqb summary_text "")
    then msg ++ "### 📝 Summary" ++ nl ++ nl ++ summary_text ++ nl ++ nl
    else msg in
  let msg := msg ++ "💬 *Ask me questions about the results or request specific details!*" in
  msg.

(** The parts of the completion message, each empty when its condition
    fails. *)
Definition analysis_banner : string := "✅ **Analysis Complete!**" ++ nl ++ nl.

Definition analysis_hint : string :=
  "💬 *Ask me questions about the results or request specific details!*".

Definition well_section (params : list (string * PyVal)) : string :=
  match dict_get "well_name" params with
  | Some well_name =>
      if truthy well_name then "**Well:** " ++ py_str well_name ++ nl ++ nl
      else ""
  | None => ""
  end.

Definition nodal_section (nodal : NodalAnalysis) : string :=
  match nodal with
  | NodalSuccess results =>
      let op := operating_point results in
      let prod := productivity results in
      "### ⚙️ Nodal Analysis Results" ++ nl ++ nl
      ++ "- **Flow Rate:** " ++ float_repr (flow_rate_m3_h op) ++ " m³/h" ++ nl
      ++ "- **Wellhead Pressure:** " ++ float_repr (wellhead_pressure_bar op)
      ++ " bar" ++ nl
      ++ "- **Bottomhole Pressure:** " ++ float_repr (bottomhole_pressure_bar op)
      ++ " bar" ++ nl
      ++ "- **Max Flow Potential:** " ++ float_repr (max_flow_rate_m3_h prod)
      ++ " m³/h" ++ nl
      ++ "- **Current Utilization:** " ++ float_repr (current_utilization_pct prod)
      ++ "%" ++ nl ++ nl
  | NodalFailure _ => ""
  end.

Definition summary_section (summary_text : string) : string :=
  if String.eqb summary_text "" then ""
  else "### 📝 Summary" ++ nl ++ nl ++ summary_text ++ nl ++ nl.

(** ** The sidebar panels *)

(** What a Streamlit call draws. *)
Inductive Widget : Type :=
| Subheader (text : string)
| Markdown (text : string)
| Text (text : string)
| Metric (label value : string)
| Write (text : string).

(** A widget with the column it is drawn in ([with colN:]), if any. *)
Definition Placed : Type := (option nat * Widget)%type.

Module Sidebar.
Section Panels.

Variable str_title : string -> string.

Definition parameter_line (key : string) (value : PyVal) : string :=
  str_title (replace_char "_" " " key) ++ ": " ++ py_str value.

(** The loop [for key in keys: if params.get(key): st.text(...)]. *)
Definition column_texts (column : nat) (keys : list string)
    (params : list (string * PyVal)) : list Placed :=
  flat_map
    (fun key =>
       match dict_get key params with
       | Some value =>
           if truthy value then [(Some column, Text (parameter_line key value))]
           else []
       | None => []
       end)
    keys.

Definition show_parameters (st : SessionState) : list Placed :=
  match current_report st with
  | Some report =>
      let params := extracted_parameters report in
      [(None, Subheader "📋 Extracted Parameters")]
      ++ [(Some 1%nat, Markdown "**Basic Information**")]
      ++ column_texts 1 ["well_name"; "operation"; "start_date"; "duration"] params
      ++ [(Some 2%nat, Markdown "**Technical Data**")]
      ++ column_texts 2
           ["packer_depth_m"; "tubing_size"; "reservoir_temp_c"; "flow_rate_m3h"]
           params
  | None => []
  end%list.

Definition show_nodal_results (st : SessionState) : list Placed :=
  match current_report st with
  | Some report =>
      match nodal_analysis_results report with
      | NodalSuccess results =>
          let op := operating_point results in
          let prod := productivity results in
          [ (None, Subheader "⚙️ Nodal Analysis Results");
            (Some 1%nat, Metric "Flow Rate" (float_repr (flow_rate_m3_h op) ++ " m³/h"));
            (Some 2%nat, Metric "WHP" (float_repr (wellhead_pressure_bar op) ++ " bar"));
            (Some 3%nat, Metric "BHP" (float_repr (bottomhole_pressure_bar op) ++ " bar"));
            (Some 4%nat,
             Metric "Utilization" (float_repr (current_utilization_pct prod) ++ "%")) ]
      | NodalFailure _ => []
      end
  | None => []
  end.

Definition show_summary (st : SessionState) : list Placed :=
  match current_report st with
  | Some report =>
      [ (None, Subheader "📝 Executive Summary"); (None, Write (summary report)) ]
  | None => []
  end.

End Panels.
End Sidebar.

(** ** Sample reports *)

Definition results_at (utilization total_drop : float) : NodalResults :=
  {| operating_point :=
       {| flow_rate_m3_h := 40.5%float;
          wellhead_pressure_bar := 12%float;
          bottomhole_pressure_bar := 180.25%float;
          reservoir_pressure_bar := 200%float |};
     pressure_analysis :=
       {| hydrostatic_pressure_drop_bar := 150%float;
          friction_pressure_drop_bar := 18.25%float;
          total_pressure_drop_bar := total_drop |};
     flow_characteristics :=
       {| reynolds_number := 125000%float;
          flow_regime := "Turbulent";
          friction_factor := 0.03125%float;
          velocity_m_s := 1.5%float |};
     productivity :=
       {| productivity_index_m3h_bar := 2.5%float;
          max_flow_rate_m3_h := 100%float;
          current_utilization_pct := utilization |} |}.

Definition sample_results : NodalResults := results_at 40.5%float 168.25%float.

Definition sample_parameters : list (string * PyVal) :=
  [("well_name", PyStr "A-12"); ("duration", PyStr "")].

Definition sample_report : Report :=
  {| extracted_parameters := sample_parameters;
     nodal_analysis_results := NodalSuccess sample_results;
     summary := "Completion run without incident." |}.

Definition failed_report : Report :=
  {| extracted_parameters := sample_parameters;
     nodal_analysis_results := NodalFailure "Missing tubing data";
     summary := "Completion run without incident." |}.

Definition field_parameters : list (string * PyVal) :=
  [ ("well_name", PyStr "A-12");
    ("duration", PyStr "");
    ("packer_depth_m", PyInt 1500);
    ("hse_incidents", PyInt 0);
    ("fluid_type", PyStr "brine") ].

Definition field_report : Report :=
  {| extracted_parameters := field_parameters;
     nodal_analysis_results := NodalSuccess sample_results;
     summary := "" |}.

Definition field_session : SessionState :=
  {| messages := [];
     current_report := Some field_report;
     uploaded_file_name := Some "well_A12.pdf" |}.

Definition silent_report : Report :=
  {| extracted_parameters := [("duration", PyStr ""); ("hse_incidents", PyInt 0)];
     nodal_analysis_results := NodalFailure "Missing tubing data";
     summary := "" |}.

Definition silent_session : SessionState :=
  {| messages := [];
     current_report := Some silent_report;
     uploaded_file_name := Some "well_B7.pdf" |}.

Section DialogueCore.

(** Python's [str.lower] and [str.title]. *)
Variable str_lower : string -> string.
Variable str_title : string -> string.

(** *** Formatters *)

Definition format_nodal_details (results : NodalResults) : string :=
  let op := operating_point results in
  let pa := pressure_analysis results in
  let fc := flow_characteristics results in
  let prod := productivity results in
  let msg := "### ⚙️ Detailed Nodal Analysis" ++ nl ++ nl in
  let msg := msg ++ "**Operating Point:**" ++ nl in
  let msg := msg ++ "- Flow Rate: " ++ float_repr (flow_rate_m3_h op) ++ " m³/h" ++ nl in
  let msg := msg ++ "- Wellhead Pressure: " ++ float_repr (wellhead_pressure_bar op) ++ " bar" ++ nl in
  let msg := msg ++ "- Bottomhole Pressure: " ++ float_repr (bottomhole_pressure_bar op) ++ " bar" ++ nl in
  let msg := msg ++ "- Reservoir Pressure: " ++ float_repr (reservoir_pressure_bar op) ++ " bar" ++ nl ++ nl in
  let msg := msg ++ "**Pressure Analysis:**" ++ nl in
  let msg := msg ++ "- Hydrostatic Drop: " ++ float_repr (hydrostatic_pressure_drop_bar pa) ++ " bar" ++ nl in
  let msg := msg ++ "- Friction Drop: " ++ float_repr (friction_pressure_drop_bar pa) ++ " bar" ++ nl in
  let msg := msg ++ "- Total Drop: " ++ float_repr (total_pressure_drop_bar pa) ++ " bar" ++ nl ++ nl in
  let msg := msg ++ "**Flow Characteristics:**" ++ nl in
  let msg := msg ++ "- Reynolds Number: " ++ float_repr (reynolds_number fc) ++ nl in
  let msg := msg ++ "- Flow Regime: " ++ flow_regime fc ++ nl in
  let msg := msg ++ "- Friction Factor: " ++ float_repr (friction_factor fc) ++ nl in
  let msg := msg ++ "- Velocity: " ++ float_repr (velocity_m_s fc) ++ " m/s" ++ nl ++ nl in
  let msg := msg ++ "**Productivity:**" ++ nl in
  let msg := msg ++ "- Productivity Index: " ++ float_repr (productivity_index_m3h_bar prod) ++ " m³/h/bar" ++ nl in
  let msg := msg ++ "- Maximum Flow: " ++ float_repr (max_flow_rate_m3_h prod) ++ " m³/h" ++ nl in
  let msg := msg ++ "- Current Utilization: " ++ float_repr (current_utilization_pct prod) ++ "%" ++ nl in
  msg.

Definition advice_header (utilization : float) : string :=
  let msg := "### 💡 Production Optimization Recommendations" ++ nl ++ nl in
  let msg := msg ++ "**Current Status:** Operating at " ++ float_repr utilization
                 ++ "% of maximum potential" ++ nl ++ nl in
  msg.

Definition high_potential (gain : float) : string :=
  let msg := "🚀 **High optimization potential!**" ++ nl ++ nl in
  let msg := msg ++ "**Recommendations:**" ++ nl in
  let msg := msg ++ "1. **Increase ESP frequency** - Could boost production significantly" ++ nl in
  let msg := msg ++ "2. **Reduce wellhead backpressure** - Check surface facilities" ++ nl in
  let msg := msg ++ "3. **Review choke settings** - May be restricting flow" ++ nl in
  let msg := msg ++ ("4. **Potential gain:** Up to " ++ format_1f gain ++ " m³/h" ++ nl) in
  msg.

Definition moderate_potential : string :=
  let msg := "📈 **Moderate optimization potential**" ++ nl ++ nl in
  let msg := msg ++ "**Recommendations:**" ++ nl in
  let msg := msg ++ "1. **Fine-tune ESP settings** - Gradual frequency increase" ++ nl in
  let msg := msg ++ "2. **Monitor reservoir pressure** - Ensure adequate drive" ++ nl in
  let msg := msg ++ "3. **Optimize artificial lift** - Balance power vs production" ++ nl in
  msg.

Definition operating_efficiently : string :=
  let msg := "✅ **Well is operating efficiently!**" ++ nl ++ nl in
  let msg := msg ++ "Current utilization is good. Focus on:" ++ nl in
  let msg := msg ++ "1. **Maintain current settings** - Don't over-produce" ++ nl in
  let msg := msg ++ "2. **Monitor for decline** - Track performance over time" ++ nl in
  let msg := msg ++ "3. **Prevent equipment damage** - Operating near capacity" ++ nl in
  msg.

Definition generate_optimization_advice (results : NodalResults) : string :=
  let prod := productivity results in
  let utilization := current_utilization_pct prod in
  let msg := advice_header utilization in
  if PrimFloat.ltb utilization 50%float then
    msg ++ high_potential
             (PrimFloat.sub (max_flow_rate_m3_h prod)
                            (flow_rate_m3_h (operating_point results)))
  else if PrimFloat.ltb utilization 75%float then
    msg ++ moderate_potential
  else
    msg ++ operating_efficiently.

(** The two percentages of [identify_limitations], in the order it
    computes them: [(hydrostatic_pct, friction_pct)]. *)
Definition pressure_drop_breakdown (pa : PressureAnalysis)
  : result (float * float) :=
  let total_drop := total_pressure_drop_bar pa in
  if PrimFloat.eqb total_drop 0%float then
    Ok (0%float, 0%float)
  else
    h <- truediv (hydrostatic_pressure_drop_bar pa) total_drop ;;
    let hydrostatic_pct := PrimFloat.mul h 100%float in
    f <- truediv (friction_pressure_drop_bar pa) total_drop ;;
    let friction_pct := PrimFloat.mul f 100%float in
    Ok (hydrostatic_pct, friction_pct).

Definition high_friction_warning : string :=
  let msg := "⚠️ **High friction losses** - Consider:" ++ nl in
  let msg := msg ++ "- Larger tubing diameter" ++ nl in
  let msg := msg ++ "- Scale/wax treatment" ++ nl in
  let msg := msg ++ "- Flow regime optimization" ++ nl ++ nl in
  msg.

(** The text of [identify_limitations] once the percentages are known. *)
Definition limitations_message (pa : PressureAnalysis)
    (fc : FlowCharacteristics) (hydrostatic_pct friction_pct : float)
  : string :=
  let msg := "### 🔍 Production Limitation Analysis" ++ nl ++ nl in
  let msg := msg ++ "**Pressure Drop Breakdown:**" ++ nl in
  let msg := msg ++ "- Hydrostatic: " ++ format_1f hydrostatic_pct ++ "% ("
                 ++ float_repr (hydrostatic_pressure_drop_bar pa) ++ " bar)" ++ nl in
  let msg := msg ++ "- Friction: " ++ format_1f friction_pct ++ "% ("
                 ++ float_repr (friction_pressure_drop_bar pa) ++ " bar)" ++ nl ++ nl in
  let msg := msg ++ "**Main Limiting Factors:**" ++ nl ++ nl in
  let msg :=
    if PrimFloat.ltb 10%float friction_pct then msg ++ high_friction_warning
    else msg in
  let msg := msg ++ "🔹 **Hydrostatic head** - Natural limitation due to well depth" ++ nl in
  let msg := msg ++ "🔹 **Wellhead pressure** - Surface equipment backpressure" ++ nl in
  let msg := msg ++ "🔹 **Flow regime** - Currently " ++ str_lower (flow_regime fc) ++ nl ++ nl in
  let msg := msg ++ "*The friction losses indicate tubing efficiency. Lower is better!*" in
  msg.

Definition identify_limitations (results : NodalResults) : result string :=
  let pa := pressure_analysis results in
  let fc := flow_characteristics results in
  pcts <- pressure_drop_breakdown pa ;;
  let '(hydrostatic_pct, friction_pct) := pcts in
  Ok (limitations_message pa fc hydrostatic_pct friction_pct).

(** *** Branches of [generate_response] *)

Definition needs_upload (user_input : string) : string :=
  echo_prefix ++ user_input ++ needs_upload_suffix.

Definition fallback_menu (user_input : string) : string :=
  echo_prefix ++ user_input ++ fallback_menu_suffix.

Definition parameter_bullet (key : string) (value : PyVal) : string :=
  "- **" ++ str_title (replace_char "_" " " key) ++ ":** " ++ py_str value ++ nl.

(** The loop over [params.items()]. *)
Definition show_parameters (params : list (string * PyVal)) : string :=
  fold_left
    (fun msg '(key, value) =>
       if truthy value then msg ++ parameter_bullet key value else msg)
    params
    ("### 📋 Extracted Parameters" ++ nl ++ nl).

Definition show_nodal_details (nodal : NodalAnalysis) : string :=
  match nodal with
  | NodalSuccess results => format_nodal_details results
  | NodalFailure message => incomplete_prefix ++ message
  end.

Definition show_summary (report : Report) : string :=
  "### 📝 Document Summary" ++ nl ++ nl ++ summary report.

Definition optimization_advice (nodal : NodalAnalysis) : string :=
  match nodal with
  | NodalSuccess results => generate_optimization_advice results
  | NodalFailure _ => needs_successful_for_advice
  end.

Definition limitation_analysis (nodal : NodalAnalysis) : result string :=
  match nodal with
  | NodalSuccess results => identify_limitations results
  | NodalFailure _ => Ok needs_successful_for_limitations
  end.

(** *** The response generator *)

Definition generate_response (user_input : string) (report : option Report)
  : result string :=
  let lower_input := str_lower user_input in
  match report with
  | None =>
      if any_in ["upload"; "how"; "start"] lower_input then
        Ok help_getting_started
      else if any_in ["extract"; "parameter"] lower_input then
        Ok explain_extraction
      else if any_in ["nodal"; "analysis"; "calculate"] lower_input then
        Ok explain_nodal_analysis
      else
        Ok (needs_upload user_input)
  | Some report =>
      if any_in ["parameter"; "extract"; "data"] lower_input then
        Ok (show_parameters (extracted_parameters report))
      else if any_in ["nodal"; "pressure"; "flow"] lower_input then
        Ok (show_nodal_details (nodal_analysis_results report))
      else if any_in ["summary"; "overview"] lower_input then
        Ok (show_summary report)
      else if any_in ["increase"; "optimize"; "improve"] lower_input then
        Ok (optimization_advice (nodal_analysis_results report))
      else if any_in ["limit"; "bottleneck"; "problem"] lower_input then
        limitation_analysis (nodal_analysis_results report)
      else
        Ok (fallback_menu user_input)
  end.

(** *** The classifier the specification describes *)

Definition classify (utterance : string) (reportPresent : bool) : Intent :=
  let lower_input := str_lower utterance in
  if reportPresent then first_match report_rules FallbackMenu lower_input
  else first_match no_report_rules NeedsUpload lower_input.

(** What each intent answers. *)
Definition generate (intent : Intent) (user_input : string)
    (report : option Report) : option (result string) :=
  match intent, report with
  | HelpGettingStarted, None => Some (Ok help_getting_started)
  | ExplainExtraction, None => Some (Ok explain_extraction)
  | ExplainNodalAnalysis, None => Some (Ok explain_nodal_analysis)
  | NeedsUpload, None => Some (Ok (needs_upload user_input))
  | ShowParameters, Some r => Some (Ok (show_parameters (extracted_parameters r)))
  | ShowNodalDetails, Some r =>
      Some (Ok (show_nodal_details (nodal_analysis_results r)))
  | ShowSummary, Some r => Some (Ok (show_summary r))
  | OptimizationAdvice, Some r =>
      Some (Ok (optimization_advice (nodal_analysis_results r)))
  | LimitationAnalysis, Some r =>
      Some (limitation_analysis (nodal_analysis_results r))
  | FallbackMenu, Some r => Some (Ok (fallback_menu user_input))
  | _, _ => None
  end.

(** *** A chat turn: the handler of [st.chat_input] *)

Definition append_message (m : Message) (st : SessionState) : SessionState :=
  {| messages := messages st ++ [m];
     current_report := current_report st;
     uploaded_file_name := uploaded_file_name st |}.

Definition chat_turn (user_input : string) (st : SessionState)
  : result SessionState :=
  if String.eqb user_input "" then Ok st
  else
    let st := append_message {| role := user; content := user_input |} st in
    response <- generate_response user_input (current_report st) ;;
    Ok (append_message {| role := assistant; content := response |} st).

(** *** Vocabulary of the properties *)

Definition present (report : option Report) : bool :=
  match report with
  | Some _ => true
  | None => false
  end.

(** No keyword of the rule occurs in the lower-cased utterance. *)
Definition unmatched (lower_input : string) (rule : list string * Intent) : Prop :=
  any_in (fst rule) lower_input = false.

(** The bullets [show_parameters] emits: one per entry with a truthy
    value, in the order of the entries. *)
Definition emitted_bullets (params : list (string * PyVal)) : list string :=
  map (fun '(key, value) => parameter_bullet key value)
      (filter (fun '(_, value) => truthy value) params).

Definition join (pieces : list string) : string :=
  fold_right append "" pieces.

(** *** The session: its first state, an analysis, a run of chat turns *)

Definition greeting : string :=
  "👋 **Hello! I'm your Well Analysis Assistant.**" ++ nl ++
  nl ++
  "I can help you with:" ++ nl ++
  "- 📄 Analyzing well completion reports (PDF)  " ++ nl ++
  "- 🔍 Extracting parameters from documents  " ++ nl ++
  "- ⚙️ Performing automated nodal analysis  " ++ nl ++
  "- 📊 Generating summaries and reports  " ++ nl ++
  "- ❓ Answering questions about your wells  " ++ nl ++
  nl ++
  "Upload a PDF to get started!".

Definition initial_session : SessionState :=
  {| messages := [ {| role := assistant; content := greeting |} ];
     current_report := None;
     uploaded_file_name := None |}.

(** What [agent.run()] gives back: the report, or an exception with its
    text. *)
Inductive AnalysisOutcome : Type :=
| Analyzed (report : Report)
| AnalysisError (text : string).

(** The handler of the "Analyze Document" button: the new state, and the
    line [st.error] shows when the analysis raised. *)
Definition analyze_document (file_name : string) (outcome : AnalysisOutcome)
    (st : SessionState) : SessionState * option string :=
  let st :=
    {| messages := messages st;
       current_report := current_report st;
       uploaded_file_name := Some file_name |} in
  match outcome with
  | Analyzed report =>
      let st :=
        {| messages := messages st;
           current_report := Some report;
           uploaded_file_name := uploaded_file_name st |} in
      let st :=
        append_message {| role := user; content := "Analyze " ++ file_name |} st in
      let results_msg := format_analysis_results report in
      let st := append_message {| role := assistant; content := results_msg |} st in
      (st, None)
  | AnalysisError text => (st, Some ("❌ Analysis failed: " ++ text))
  end.

(** One chat turn after another, each on the state the one before left. *)
Fixpoint chat_turns (inputs : list string) (st : SessionState)
  : result SessionState :=
  match inputs with
  | [] => Ok st
  | user_input :: rest =>
      st' <- chat_turn user_input st ;;
      chat_turns rest st'
  end.

(** What happens in a session: a question in the chat, or a press of the
    "Analyze Document" button with what the analysis gave. *)
Inductive Event : Type :=
| Ask (user_input : string)
| Analyze (file_name : string) (outcome : AnalysisOutcome).

Definition handle (event : Event) (st : SessionState) : result SessionState :=
  match event with
  | Ask user_input => chat_turn user_input st
  | Analyze file_name outcome => Ok (fst (analyze_document file_name outcome st))
  end.

Fixpoint run_events (events : list Event) (st : SessionState)
  : result SessionState :=
  match events with
  | [] => Ok st
  | event :: rest =>
      st' <- handle event st ;;
      run_events rest st'
  end.

(** A log of question and answer pairs. *)
Definition exchanges (pairs : list (string * string)) : list Message :=
  flat_map
    (fun '(question, answer) =>
       [ {| role := user; content := question |};
         {| role := assistant; content := answer |} ])
    pairs.

(** The pair a question adds to the log: the question and its answer. *)
Definition ask_exchange (report : option Report) (user_input : string)
  : list (string * string) :=
  if String.eqb user_input "" then []
  else
    match generate_response user_input report with
    | Ok answer => [(user_input, answer)]
    | Raise _ => []
    end.

(** The pairs a sequence of events adds to the log of a session whose
    current report is [report]. *)
Fixpoint event_exchanges (report : option Report) (events : list Event)
  : list (string * string) :=
  match events with
  | [] => []
  | Ask user_input :: rest =>
      (ask_exchange report user_input ++ event_exchanges report rest)%list
  | Analyze file_name (Analyzed analyzed) :: rest =>
      ("Analyze " ++ file_name, format_analysis_results analyzed)
      :: event_exchanges (Some analyzed) rest
  | Analyze _ (AnalysisError _) :: rest => event_exchanges report rest
  end.

(** The report and the file name a session holds after the events. *)
Fixpoint report_after (report : option Report) (events : list Event)
  : option Report :=
  match events with
  | [] => report
  | Analyze _ (Analyzed analyzed) :: rest => report_after (Some analyzed) rest
  | _ :: rest => report_after report rest
  end.

Fixpoint file_name_after (file_name : option string) (events : list Event)
  : option string :=
  match events with
  | [] => file_name
  | Analyze name _ :: rest => file_name_after (Some name) rest
  | Ask _ :: rest => file_name_after file_name rest
  end.

(** The events that add a pair to the log. *)
Definition has_answer (event : Event) : bool :=
  match event with
  | Ask user_input => negb (String.eqb user_input "")
  | Analyze _ (Analyzed _) => true
  | Analyze _ (AnalysisError _) => false
  end.

(** The two messages a turn adds to the log. *)
Definition turn_log (report : option Report) (user_input : string)
  : list Message :=
  if String.eqb user_input "" then []
  else
    match generate_response user_input report with
    | Ok response =>
        [ {| role := user; content := user_input |};
          {| role := assistant; content := response |} ]
    | Raise _ => []
    end.

(** ** The conversions at sample values *)

Example float_repr_samples :
  map float_repr
      [40.5%float; 12%float; 0.03125%float; 125000%float; 1e16%float;
       0x1p-17%float; (-2.5)%float; 0x1.0000000000001p50%float]
  = ["40.5"; "12.0"; "0.03125"; "125000.0"; "1e+16";
     "7.62939453125e-06"; "-2.5"; "1125899906842624.2"].
Proof. vm_compute. reflexivity. Qed.

Example format_1f_samples :
  map format_1f
      [59.5%float; 0.25%float; 0.75%float; 99.96875%float; (-0.03125)%float;
       0%float; infinity; nan]
  = ["59.5"; "0.2"; "0.8"; "100.0"; "-0.0"; "0.0"; "inf"; "nan"].
Proof. vm_compute. reflexivity. Qed.

Example ascii_title_sample :
  ascii_title (replace_char "_" " " "flow_rate_m3h") = "Flow Rate M3H".
Proof. reflexivity. Qed.

(** ** Strings: substring search *)

Lemma append_assoc (a b c : string) : (a ++ b) ++ c = a ++ (b ++ c).
Proof.
  induction a as [|x a IH]; simpl; [reflexivity | now rewrite IH].
Qed.

Lemma append_empty_r (a : string) : a ++ "" = a.
Proof.
  induction a as [|x a IH]; simpl; [reflexivity | now rewrite IH].
Qed.

Lemma length_append (a b : string) :
  String.length (a ++ b) = (String.length a + String.length b)%nat.
Proof.
  induction a as [|x a IH]; simpl; [reflexivity | now rewrite IH].
Qed.

Lemma append_cancel_l (a b c : string) : a ++ b = a ++ c -> b = c.
Proof.
  induction a as [|x a IH]; simpl; intros H; [exact H |].
  injection H as H. now apply IH.
Qed.

Lemma append_cancel_r (a b c : string) : a ++ c = b ++ c -> a = b.
Proof.
  revert b. induction a as [|x a IH]; intros [|y b] H; simpl in H.
  - reflexivity.
  - apply (f_equal String.length) in H. simpl in H.
    rewrite length_append in H. lia.
  - apply (f_equal String.length) in H. simpl in H.
    rewrite length_append in H. lia.
  - injection H as Hx H. subst y. f_equal. now apply IH.
Qed.

Lemma starts_with_spec (w s : string) :
  starts_with w s = true <-> exists post, s = w ++ post.
Proof.
  revert s. induction w as [|a w IH]; intros s; simpl.
  - split; [intros _; now exists s | reflexivity].
  - destruct s as [|b s].
    + split; [discriminate | intros [post H]; discriminate].
    + rewrite andb_true_iff, Ascii.eqb_eq, IH. split.
      * intros [-> [post ->]]. now exists post.
      * intros [post H]. injection H as -> ->. split; [reflexivity | now exists post].
Qed.

Lemma contains_unfold (w s : string) :
  contains w s =
  starts_with w s || match s with
                     | EmptyString => false
                     | String _ s' => contains w s'
                     end.
Proof. destruct s; reflexivity. Qed.

(** [contains] is substring search: the keyword may stand anywhere. *)
Lemma contains_spec (w s : string) :
  contains w s = true <-> exists pre post, s = pre ++ w ++ post.
Proof.
  split.
  - induction s as [|c s IH]; rewrite contains_unfold, orb_true_iff.
    + intros [H | H]; [| discriminate].
      apply starts_with_spec in H as [post ->]. now exists "", post.
    + intros [H | H].
      * apply starts_with_spec in H as [post ->]. now exists "", post.
      * destruct (IH H) as (pre & post & ->). now exists (String c pre), post.
  - intros (pre & post & ->). induction pre as [|c pre IH].
    + rewrite contains_unfold. simpl.
      replace (starts_with w (w ++ post)) with true; [reflexivity |].
      symmetry. apply starts_with_spec. now exists post.
    + rewrite contains_unfold. simpl. rewrite IH. apply orb_true_r.
Qed.

Lemma contains_append_mid (pre w post : string) :
  contains w (pre ++ w ++ post) = true.
Proof. apply contains_spec. now exists pre, post. Qed.


Lemma contains_append_l (w a b : string) :
  contains w a = true -> contains w (a ++ b) = true.
Proof.
  rewrite !contains_spec. intros (pre & post & ->).
  exists pre, (post ++ b). now rewrite !append_assoc.
Qed.

Lemma any_in_spec (words : list string) (s : string) :
  any_in words s = true <-> exists w, In w words /\ contains w s = true.
Proof. unfold any_in. apply existsb_exists. Qed.

(** ** The classifier and the if-chain of [generate_response] agree *)

Lemma first_match_stops (before after : list (list string * Intent))
    (keywords : list string) (intent default : Intent) (lower_input : string) :
  Forall (fun rule => any_in (fst rule) lower_input = false) before ->
  any_in keywords lower_input = true ->
  first_match (before ++ (keywords, intent) :: after) default lower_input
  = intent.
Proof.
  intros Hbefore Hhit. induction Hbefore as [|[kws i] before Hmiss _ IH]; simpl.
  - now rewrite Hhit.
  - simpl in Hmiss. now rewrite Hmiss.
Qed.

Lemma first_match_default (rules : list (list string * Intent))
    (default : Intent) (lower_input : string) :
  Forall (fun rule => any_in (fst rule) lower_input = false) rules ->
  first_match rules default lower_input = default.
Proof.
  induction 1 as [|[kws i] rules Hmiss _ IH]; simpl; [reflexivity |].
  simpl in Hmiss. now rewrite Hmiss.
Qed.

(** [generate_response] is [classify] followed by [generate]. *)
Lemma generate_response_refines (user_input : string) (report : option Report) :
  generate (classify user_input (present report)) user_input report
  = Some (generate_response user_input report).
Proof.
  unfold classify, generate_response, report_rules, no_report_rules.
  destruct report as [r|]; cbn [present first_match];
    repeat match goal with
           | |- context [any_in ?k ?s] => destruct (any_in k s)
           end; reflexivity.
Qed.

Lemma response_of_intent (user_input : string) (report : Report)
    (intent : Intent) :
  classify user_input true = intent ->
  generate intent user_input (Some report)
  = Some (generate_response user_input (Some report)).
Proof.
  intros <-. exact (generate_response_refines user_input (Some report)).
Qed.

(** ** Rounding to one decimal *)



(** ** Float comparisons against the band limits *)




(** ** Totality of the formatters *)

Lemma pressure_drop_breakdown_zero (pa : PressureAnalysis) :
  PrimFloat.eqb (total_pressure_drop_bar pa) 0%float = true ->
  pressure_drop_breakdown pa = Ok (0%float, 0%float).
Proof. unfold pressure_drop_breakdown. now intros ->. Qed.

Lemma pressure_drop_breakdown_nonzero (pa : PressureAnalysis) :
  PrimFloat.eqb (total_pressure_drop_bar pa) 0%float = false ->
  pressure_drop_breakdown pa
  = Ok (PrimFloat.mul (PrimFloat.div (hydrostatic_pressure_drop_bar pa)
                                     (total_pressure_drop_bar pa)) 100%float,
        PrimFloat.mul (PrimFloat.div (friction_pressure_drop_bar pa)
                                     (total_pressure_drop_bar pa)) 100%float).
Proof.
  unfold pressure_drop_breakdown, truediv. intros H. rewrite H. reflexivity.
Qed.

Lemma identify_limitations_total (results : NodalResults) :
  exists msg, identify_limitations results = Ok msg.
Proof.
  unfold identify_limitations.
  destruct (PrimFloat.eqb (total_pressure_drop_bar (pressure_analysis results))
                          0%float) eqn:E.
  - rewrite (pressure_drop_breakdown_zero _ E). simpl. eauto.
  - rewrite (pressure_drop_breakdown_nonzero _ E). simpl. eauto.
Qed.

Lemma limitation_analysis_total (nodal : NodalAnalysis) :
  exists msg, limitation_analysis nodal = Ok msg.
Proof.
  destruct nodal as [results | message]; simpl.
  - apply identify_limitations_total.
  - eauto.
Qed.

Lemma generate_response_returns (user_input : string) (report : option Report) :
  exists msg, generate_response user_input report = Ok msg.
Proof.
  unfold generate_response.
  destruct report as [r|];
    repeat match goal with
           | |- context [any_in ?k ?s] => destruct (any_in k s)
           end; eauto using limitation_analysis_total.
Qed.

(** ** Properties of the specification *)

(** C1 (as amended).  With a report loaded the keyword sets are tried in
    the order parameters, nodal, summary, optimization, limitations and
    the first set with a matching keyword decides, whatever later sets
    match.  An utterance containing both "nodal" and "summary" is never
    answered with the summary: it gets the nodal details unless it also
    contains "parameter", "extract" or "data", in which case it gets the
    parameters. *)
Theorem report_priority_first_match (user_input : string) (report : Report) :
  (forall (before after : list (list string * Intent)) keywords intent,
      report_rules = (before ++ (keywords, intent) :: after)%list ->
      Forall (unmatched (str_lower user_input)) before ->
      any_in keywords (str_lower user_input) = true ->
      classify user_input true = intent
      /\ generate intent user_input (Some report)
         = Some (generate_response user_input (Some report)))
  /\ (contains "nodal" (str_lower user_input) = true ->
      contains "summary" (str_lower user_input) = true ->
      (any_in ["parameter"; "extract"; "data"] (str_lower user_input) = false ->
       classify user_input true = ShowNodalDetails
       /\ generate_response user_input (Some report)
          = Ok (show_nodal_details (nodal_analysis_results report)))
      /\ (any_in ["parameter"; "extract"; "data"] (str_lower user_input) = true ->
          classify user_input true = ShowParameters
          /\ generate_response user_input (Some report)
             = Ok (show_parameters (extracted_parameters report)))).
Proof.
  split.
  - intros before after keywords intent Hrules Hbefore Hhit.
    assert (Hc : classify user_input true = intent)
      by (unfold classify; rewrite Hrules; now apply first_match_stops).
    split; [exact Hc | now apply response_of_intent].
  - intros Hnodal Hsummary.
    assert (Hn : any_in ["nodal"; "pressure"; "flow"] (str_lower user_input) = true).
    { apply any_in_spec. exists "nodal". split; [now left | exact Hnodal]. }
    split; intros Hp.
    + unfold classify, generate_response, report_rules.
      cbn [first_match]. now rewrite Hp, Hn.
    + unfold classify, generate_response, report_rules.
      cbn [first_match]. now rewrite Hp.
Qed.

(** C2.  When [total_drop] is zero both percentages are exactly [0.0] and
    nothing is divided; otherwise they are [hydrostatic_drop / total_drop
    * 100] and [friction_drop / total_drop * 100]; in both cases
    [identify_limitations] returns its text and raises nothing. *)
Theorem limitation_percentages_guarded (results : NodalResults) :
  let pa := pressure_analysis results in
  let fc := flow_characteristics results in
  let total_drop := total_pressure_drop_bar pa in
  (PrimFloat.eqb total_drop 0%float = true ->
   pressure_drop_breakdown pa = Ok (0%float, 0%float)
   /\ identify_limitations results
      = Ok (limitations_message pa fc 0%float 0%float))
  /\ (PrimFloat.eqb total_drop 0%float = false ->
      let hydrostatic_pct :=
        PrimFloat.mul (PrimFloat.div (hydrostatic_pressure_drop_bar pa) total_drop)
                      100%float in
      let friction_pct :=
        PrimFloat.mul (PrimFloat.div (friction_pressure_drop_bar pa) total_drop)
                      100%float in
      pressure_drop_breakdown pa = Ok (hydrostatic_pct, friction_pct)
      /\ identify_limitations results
         = Ok (limitations_message pa fc hydrostatic_pct friction_pct))
  /\ (exists msg, identify_limitations results = Ok msg).
Proof.
  intros pa fc total_drop. split; [| split].
  - intros E. unfold identify_limitations.
    fold pa. rewrite (pressure_drop_breakdown_zero pa E). now split.
  - intros E hydrostatic_pct friction_pct. unfold identify_limitations.
    fold pa. rewrite (pressure_drop_breakdown_nonzero pa E). now split.
  - apply identify_limitations_total.
Qed.


(** C4.  With no report loaded, an utterance whose lower-casing contains
    "upload", "how" or "start" anywhere (as a substring, inside a longer
    word too) gets the getting-started help, whatever other keywords it
    contains; only the lower-cased text is looked at, so utterances that
    differ in case alone are answered alike. *)
Theorem help_keywords_first (user_input keyword pre post : string) :
  In keyword ["upload"; "how"; "start"] ->
  str_lower user_input = pre ++ keyword ++ post ->
  classify user_input false = HelpGettingStarted
  /\ generate_response user_input None = Ok help_getting_started
  /\ (forall other,
        str_lower other = str_lower user_input ->
        classify other false = HelpGettingStarted
        /\ generate_response other None = Ok help_getting_started).
Proof.
  intros Hin Hlower.
  assert (Hhit : any_in ["upload"; "how"; "start"] (str_lower user_input) = true).
  { apply any_in_spec. exists keyword. split; [exact Hin |].
    rewrite Hlower. apply contains_append_mid. }
  assert (Hany : forall other, str_lower other = str_lower user_input ->
                 classify other false = HelpGettingStarted
                 /\ generate_response other None = Ok help_getting_started).
  { intros other Hsame.
    unfold classify, generate_response, no_report_rules. cbn [first_match].
    rewrite Hsame, Hhit. now split. }
  destruct (Hany user_input eq_refl) as [Hc Hr]. auto.
Qed.

(** C5.  When the nodal analysis failed, the nodal-details answer is a
    warning that ends with the report's [message], copied as it is; the
    optimization and the limitation answers are each a fixed sentence
    saying that successful results are needed; none of the three raises. *)
Theorem failure_status_responses (report : Report) (message : string) :
  nodal_analysis_results report = NodalFailure message ->
  (forall user_input,
      classify user_input true = ShowNodalDetails ->
      generate_response user_input (Some report)
      = Ok (incomplete_prefix ++ message))
  /\ (forall user_input,
        classify user_input true = OptimizationAdvice ->
        generate_response user_input (Some report)
        = Ok needs_successful_for_advice)
  /\ (forall user_input,
        classify user_input true = LimitationAnalysis ->
        generate_response user_input (Some report)
        = Ok needs_successful_for_limitations)
  /\ contains message (incomplete_prefix ++ message) = true.
Proof.
  intros Hfail. repeat split.
  - intros u Hc. pose proof (response_of_intent u report _ Hc) as H.
    cbn [generate] in H. rewrite Hfail in H. cbn [show_nodal_details] in H.
    congruence.
  - intros u Hc. pose proof (response_of_intent u report _ Hc) as H.
    cbn [generate] in H. rewrite Hfail in H. cbn [optimization_advice] in H.
    congruence.
  - intros u Hc. pose proof (response_of_intent u report _ Hc) as H.
    cbn [generate] in H. rewrite Hfail in H. cbn [limitation_analysis] in H.
    congruence.
  - apply contains_spec. exists incomplete_prefix, "".
    now rewrite append_empty_r.
Qed.

Lemma show_parameters_loop (params : list (string * PyVal)) (msg : string) :
  fold_left
    (fun msg '(key, value) =>
       if truthy value then msg ++ parameter_bullet key value else msg)
    params msg
  = msg ++ join (emitted_bullets params).
Proof.
  revert msg. induction params as [|[key value] params IH]; intros msg; simpl.
  - now rewrite append_empty_r.
  - rewrite IH. unfold emitted_bullets. simpl.
    destruct (truthy value); simpl; [now rewrite append_assoc | reflexivity].
Qed.


(** C7 (as amended).  The needs-upload answer and the fallback menu are
    fixed templates around the utterance, which they quote as it is:
    the answer is the same opening, the utterance, and a closing that
    depends on nothing.  Two utterances get the same answer exactly when
    they are the same utterance, and the fallback menu is the same for
    every report. *)
Theorem echo_templates (user_input : string) :
  (classify user_input false = NeedsUpload ->
   generate_response user_input None
   = Ok (echo_prefix ++ user_input ++ needs_upload_suffix))
  /\ (classify user_input true = FallbackMenu ->
      forall report,
        generate_response user_input (Some report)
        = Ok (echo_prefix ++ user_input ++ fallback_menu_suffix))
  /\ (forall other,
        needs_upload other = needs_upload user_input <-> other = user_input)
  /\ (forall other,
        fallback_menu other = fallback_menu user_input <-> other = user_input).
Proof.
  repeat split.
  - intros Hc. pose proof (generate_response_refines user_input None) as H.
    cbn [present] in H. rewrite Hc in H. cbn [generate] in H.
    unfold needs_upload in H. congruence.
  - intros Hc report. pose proof (response_of_intent user_input report _ Hc) as H.
    cbn [generate] in H. unfold fallback_menu in H. congruence.
  - unfold needs_upload. intros H.
    apply append_cancel_l in H. now apply append_cancel_r in H.
  - now intros ->.
  - unfold fallback_menu. intros H.
    apply append_cancel_l in H. now apply append_cancel_r in H.
  - now intros ->.
Qed.

(** C8.  [generate_response] returns a string for every utterance and
    every report, present or absent, and raises nothing; an utterance that
    matches no keyword set gets the needs-upload answer when no report is
    loaded and the fallback menu when one is. *)
Theorem generate_response_total (user_input : string) (report : option Report) :
  (exists msg, generate_response user_input report = Ok msg)
  /\ (Forall (unmatched (str_lower user_input)) no_report_rules ->
      classify user_input false = NeedsUpload
      /\ generate_response user_input None = Ok (needs_upload user_input))
  /\ (Forall (unmatched (str_lower user_input)) report_rules ->
      forall loaded,
        classify user_input true = FallbackMenu
        /\ generate_response user_input (Some loaded)
           = Ok (fallback_menu user_input)).
Proof.
  split; [apply generate_response_returns |]. split.
  - intros Hmiss.
    assert (Hc : classify user_input false = NeedsUpload)
      by (unfold classify; now apply first_match_default).
    split; [exact Hc |].
    pose proof (generate_response_refines user_input None) as H.
    cbn [present] in H. rewrite Hc in H. cbn [generate] in H.
    congruence.
  - intros Hmiss loaded.
    assert (Hc : classify user_input true = FallbackMenu)
      by (unfold classify; now apply first_match_default).
    split; [exact Hc |].
    pose proof (response_of_intent user_input loaded _ Hc) as H.
    cbn [generate] in H. congruence.
Qed.


(** ** Further properties of the response generator *)

Lemma any_in_extraction_parameters (lower_input : string) :
  any_in ["extract"; "parameter"] lower_input = true ->
  any_in ["parameter"; "extract"; "data"] lower_input = true.
Proof.
  unfold any_in. cbn [existsb].
  destruct (contains "extract" lower_input),
           (contains "parameter" lower_input); simpl; congruence.
Qed.

(** X1.  The if-chain of [generate_response] is a dispatch on the first
    matching rule of an ordered list: its result is what [generate] gives
    for the intent [classify] finds, and that intent is one of the four
    no-report intents when no report is loaded and one of the six report
    intents when one is. *)
Theorem if_chain_is_rule_dispatch (user_input : string) (report : option Report) :
  generate (classify user_input (present report)) user_input report
  = Some (generate_response user_input report)
  /\ In (classify user_input false)
        [HelpGettingStarted; ExplainExtraction; ExplainNodalAnalysis; NeedsUpload]
  /\ In (classify user_input true)
        [ShowParameters; ShowNodalDetails; ShowSummary; OptimizationAdvice;
         LimitationAnalysis; FallbackMenu].
Proof.
  split; [apply generate_response_refines |].
  unfold classify, no_report_rules, report_rules. cbn [first_match].
  split;
    repeat match goal with
           | |- context [any_in ?k ?s] => destruct (any_in k s)
           end; simpl; tauto.
Qed.

(** X2.  With no report loaded the three keyword sets are tried in the
    order help, extraction, nodal analysis and the first that matches
    decides: an utterance with an extraction keyword and no help keyword
    gets the extraction text even when it names the nodal analysis too,
    and the nodal text needs the first two sets to miss. *)
Theorem no_report_priority_first_match (user_input : string) :
  (forall (before after : list (list string * Intent)) keywords intent,
      no_report_rules = (before ++ (keywords, intent) :: after)%list ->
      Forall (unmatched (str_lower user_input)) before ->
      any_in keywords (str_lower user_input) = true ->
      classify user_input false = intent
      /\ generate intent user_input None
         = Some (generate_response user_input None))
  /\ (any_in ["upload"; "how"; "start"] (str_lower user_input) = false ->
      any_in ["extract"; "parameter"] (str_lower user_input) = true ->
      generate_response user_input None = Ok explain_extraction)
  /\ (any_in ["upload"; "how"; "start"] (str_lower user_input) = false ->
      any_in ["extract"; "parameter"] (str_lower user_input) = false ->
      any_in ["nodal"; "analysis"; "calculate"] (str_lower user_input) = true ->
      generate_response user_input None = Ok explain_nodal_analysis).
Proof.
  split; [| split].
  - intros before after keywords intent Hrules Hbefore Hhit.
    assert (Hc : classify user_input false = intent)
      by (unfold classify; rewrite Hrules; now apply first_match_stops).
    split; [exact Hc |]. rewrite <- Hc.
    exact (generate_response_refines user_input None).
  - intros Hhelp Hextract. unfold generate_response.
    now rewrite Hhelp, Hextract.
  - intros Hhelp Hextract Hnodal. unfold generate_response.
    now rewrite Hhelp, Hextract, Hnodal.
Qed.

(** X3.  An utterance that gets the extraction explanation while no report
    is loaded gets the extracted parameters once a report is loaded: the
    keywords of the first are among those of the second, which is tried
    first. *)
Theorem explained_extraction_becomes_parameters (user_input : string) :
  classify user_input false = ExplainExtraction ->
  forall report,
    classify user_input true = ShowParameters
    /\ generate_response user_input (Some report)
       = Ok (show_parameters (extracted_parameters report)).
Proof.
  intros Hc report.
  assert (Hhit : any_in ["extract"; "parameter"] (str_lower user_input) = true).
  { revert Hc. unfold classify, no_report_rules. cbn [first_match].
    destruct (any_in ["upload"; "how"; "start"] (str_lower user_input));
      [discriminate |].
    destruct (any_in ["extract"; "parameter"] (str_lower user_input));
      [reflexivity |].
    destruct (any_in ["nodal"; "analysis"; "calculate"] (str_lower user_input));
      discriminate. }
  apply any_in_extraction_parameters in Hhit.
  unfold classify, generate_response, report_rules. cbn [first_match].
  rewrite Hhit. now split.
Qed.

(** X4.  Only the lower-cased utterance is matched: two utterances with
    the same lower-casing are classified alike, and they get the same
    answer except where the answer quotes the utterance (the needs-upload
    text and the fallback menu). *)
Theorem answers_ignore_case (first second : string) (report : option Report) :
  str_lower first = str_lower second ->
  classify first (present report) = classify second (present report)
  /\ (In (classify first (present report))
         [HelpGettingStarted; ExplainExtraction; ExplainNodalAnalysis;
          ShowParameters; ShowNodalDetails; ShowSummary; OptimizationAdvice;
          LimitationAnalysis] ->
      generate_response first report = generate_response second report).
Proof.
  intros Hlower.
  assert (Hc : forall b, classify first b = classify second b)
    by (intros b; unfold classify; now rewrite Hlower).
  split; [apply Hc |]. intros Hin.
  pose proof (generate_response_refines first report) as H1.
  pose proof (generate_response_refines second report) as H2.
  rewrite <- Hc in H2.
  destruct report as [r|]; cbn [present] in H1, H2, Hin;
    destruct (classify first _); cbn [generate] in H1, H2; cbn [In] in Hin;
    try congruence; intuition congruence.
Qed.

(** X5.  Each answer reads one part of the report: the parameters answer
    only the extracted parameters, the nodal, optimization and limitation
    answers only the nodal results, the summary answer only the summary,
    and the fallback menu nothing.  Two reports that agree on that part
    get the same answer. *)
Theorem answers_read_their_part_only (user_input : string) (r1 r2 : Report) :
  (classify user_input true = ShowParameters ->
   extracted_parameters r1 = extracted_parameters r2 ->
   generate_response user_input (Some r1) = generate_response user_input (Some r2))
  /\ (In (classify user_input true)
         [ShowNodalDetails; OptimizationAdvice; LimitationAnalysis] ->
      nodal_analysis_results r1 = nodal_analysis_results r2 ->
      generate_response user_input (Some r1)
      = generate_response user_input (Some r2))
  /\ (classify user_input true = ShowSummary ->
      summary r1 = summary r2 ->
      generate_response user_input (Some r1)
      = generate_response user_input (Some r2))
  /\ (classify user_input true = FallbackMenu ->
      generate_response user_input (Some r1)
      = generate_response user_input (Some r2)).
Proof.
  pose proof (generate_response_refines user_input (Some r1)) as H1.
  pose proof (generate_response_refines user_input (Some r2)) as H2.
  cbn [present] in H1, H2.
  repeat split.
  - intros Hc Hpart. rewrite Hc in H1, H2. cbn [generate] in H1, H2.
    rewrite Hpart in H1. congruence.
  - intros Hin Hpart. cbn [In] in Hin.
    destruct Hin as [Hc | [Hc | [Hc | []]]]; rewrite <- Hc in H1, H2;
      cbn [generate] in H1, H2; rewrite Hpart in H1; congruence.
  - intros Hc Hpart. rewrite Hc in H1, H2. cbn [generate] in H1, H2.
    unfold show_summary in H1, H2. rewrite Hpart in H1. congruence.
  - intros Hc. rewrite Hc in H1, H2. cbn [generate] in H1, H2. congruence.
Qed.

(** X6.  No keyword is shadowed by an earlier set: an utterance that is
    just one keyword selects the intent of that keyword's set, with and
    without a report, provided lower-casing leaves the (lower-case)
    keywords as they are. *)
Theorem every_keyword_selects_its_intent :
  (forall keyword,
      In keyword (flat_map fst (no_report_rules ++ report_rules)%list) ->
      str_lower keyword = keyword) ->
  (forall keywords intent keyword,
      In (keywords, intent) no_report_rules -> In keyword keywords ->
      classify keyword false = intent)
  /\ (forall keywords intent keyword,
        In (keywords, intent) report_rules -> In keyword keywords ->
        classify keyword true = intent).
Proof.
  intros Hfixed.
  assert (Hc : forall keyword b,
             In keyword (flat_map fst (no_report_rules ++ report_rules)%list) ->
             classify keyword b
             = if b then first_match report_rules FallbackMenu keyword
               else first_match no_report_rules NeedsUpload keyword).
  { intros keyword b Hin. unfold classify. now rewrite (Hfixed keyword Hin). }
  split; intros keywords intent keyword Hrule Hkeyword; simpl in Hrule;
    repeat match goal with
           | H : _ \/ _ |- _ => destruct H
           | H : False |- _ => destruct H
           | H : (_, _) = (_, _) |- _ => injection H as <- <-
           end;
    simpl in Hkeyword;
    repeat match goal with
           | H : _ \/ _ |- _ => destruct H
           | H : False |- _ => destruct H
           end;
    subst keyword; (rewrite Hc; [vm_compute; reflexivity | simpl; tauto]).
Qed.

(** ** Further properties of the formatters *)

(** X7.  When [total_drop] is zero the limitation answer prints 0.0% for
    both shares next to the two drops as they are, and carries no
    high-friction block, whatever the friction drop is. *)
Theorem zero_drop_limitations_text (results : NodalResults) :
  PrimFloat.eqb (total_pressure_drop_bar (pressure_analysis results)) 0%float
  = true ->
  identify_limitations results
  = Ok ("### 🔍 Production Limitation Analysis" ++ nl ++ nl
        ++ "**Pressure Drop Breakdown:**" ++ nl
        ++ "- Hydrostatic: 0.0% ("
        ++ float_repr (hydrostatic_pressure_drop_bar (pressure_analysis results))
        ++ " bar)" ++ nl
        ++ "- Friction: 0.0% ("
        ++ float_repr (friction_pressure_drop_bar (pressure_analysis results))
        ++ " bar)" ++ nl ++ nl
        ++ "**Main Limiting Factors:**" ++ nl ++ nl
        ++ "🔹 **Hydrostatic head** - Natural limitation due to well depth" ++ nl
        ++ "🔹 **Wellhead pressure** - Surface equipment backpressure" ++ nl
        ++ "🔹 **Flow regime** - Currently "
        ++ str_lower (flow_regime (flow_characteristics results)) ++ nl ++ nl
        ++ "*The friction losses indicate tubing efficiency. Lower is better!*").
Proof.
  intros Hzero. unfold identify_limitations.
  rewrite (pressure_drop_breakdown_zero _ Hzero). cbn [bind].
  unfold limitations_message.
  change (format_1f 0%float) with "0.0".
  change (PrimFloat.ltb 10%float 0%float) with false.
  cbv zeta iota. rewrite !append_assoc. reflexivity.
Qed.



Lemma no_truthy_no_bullets (params : list (string * PyVal)) :
  Forall (fun entry => truthy (snd entry) = false) params ->
  emitted_bullets params = [].
Proof.
  unfold emitted_bullets.
  induction 1 as [|[key value] params Hfalsy _ IH]; simpl; [reflexivity |].
  simpl in Hfalsy. now rewrite Hfalsy.
Qed.

(** X9.  When no parameter has a truthy value (in particular when there
    are no parameters at all) the parameters answer is the bare heading:
    the user is not told that nothing was extracted. *)
Theorem no_truthy_parameter_heading_only (params : list (string * PyVal)) :
  Forall (fun entry => truthy (snd entry) = false) params ->
  show_parameters params = "### 📋 Extracted Parameters" ++ nl ++ nl.
Proof.
  intros Hfalsy. unfold show_parameters.
  rewrite show_parameters_loop, (no_truthy_no_bullets _ Hfalsy).
  apply append_empty_r.
Qed.

(** ** The completion message *)

Lemma completion_message_sections (report : Report) :
  format_analysis_results report
  = analysis_banner
    ++ well_section (extracted_parameters report)
    ++ nodal_section (nodal_analysis_results report)
    ++ summary_section (summary report)
    ++ analysis_hint.
Proof.
  unfold format_analysis_results, well_section, nodal_section, summary_section,
    analysis_banner, analysis_hint.
  destruct (dict_get "well_name" (extracted_parameters report)) as [name|];
    [destruct (truthy name) |];
    destruct (nodal_analysis_results report) as [results | message];
    destruct (String.eqb (summary report) "");
    cbv zeta; cbn [negb]; rewrite ?append_assoc; reflexivity.
Qed.

(** X10.  The completion message always opens with the banner and closes
    with the hint.  After a failed nodal analysis it still says that the
    analysis is complete and shows neither figures nor the failure's
    message: it is the banner, the well name if there is a truthy one,
    the summary if it is not empty, and the hint; with none of these it
    is the banner and the hint alone. *)
Theorem completion_message_frame (report : Report) :
  (exists middle,
      format_analysis_results report = analysis_banner ++ middle ++ analysis_hint)
  /\ (forall message,
        nodal_analysis_results report = NodalFailure message ->
        format_analysis_results report
        = analysis_banner
          ++ well_section (extracted_parameters report)
          ++ summary_section (summary report)
          ++ analysis_hint)
  /\ (forall message,
        nodal_analysis_results report = NodalFailure message ->
        dict_get "well_name" (extracted_parameters report) = None ->
        summary report = "" ->
        format_analysis_results report = analysis_banner ++ analysis_hint).
Proof.
  rewrite completion_message_sections. split; [| split].
  - exists (well_section (extracted_parameters report)
            ++ nodal_section (nodal_analysis_results report)
            ++ summary_section (summary report)).
    now rewrite !append_assoc.
  - intros message ->. reflexivity.
  - intros message -> Hname ->. unfold well_section. rewrite Hname.
    reflexivity.
Qed.

(** ** The session *)

Lemma chat_turn_log (user_input : string) (st : SessionState) :
  chat_turn user_input st
  = Ok {| messages := messages st ++ turn_log (current_report st) user_input;
          current_report := current_report st;
          uploaded_file_name := uploaded_file_name st |}.
Proof.
  unfold chat_turn, turn_log. destruct (String.eqb user_input "").
  - rewrite app_nil_r. now destruct st.
  - cbn [append_message current_report].
    destruct (generate_response_returns user_input (current_report st))
      as [response ->].
    cbn [bind]. unfold append_message. cbn. now rewrite <- app_assoc.
Qed.

(** X11.  Any run of chat turns succeeds and only appends to the log: the
    messages before stay as they are, each non-empty input adds its own
    text as a user message followed by one assistant message, an empty
    input adds nothing, and the report and the file name are untouched.
    The answer to an input is the one it would get as the first input:
    earlier turns do not change it. *)
Theorem chat_turns_transcript (inputs : list string) (st : SessionState) :
  chat_turns inputs st
  = Ok {| messages :=
            messages st ++ flat_map (turn_log (current_report st)) inputs;
          current_report := current_report st;
          uploaded_file_name := uploaded_file_name st |}
  /\ List.length (flat_map (turn_log (current_report st)) inputs)
     = (2 * List.length (filter (fun u => negb (String.eqb u "")) inputs))%nat.
Proof.
  split.
  - revert st. induction inputs as [|u rest IH]; intros st; cbn [chat_turns flat_map].
    + rewrite app_nil_r. now destruct st.
    + rewrite chat_turn_log. cbn [bind]. rewrite IH. cbn.
      now rewrite <- app_assoc.
  - induction inputs as [|u rest IH]; [reflexivity |].
    cbn [flat_map filter]. rewrite length_app, IH.
    unfold turn_log. destruct (String.eqb u ""); cbn [negb]; [reflexivity |].
    destruct (generate_response_returns u (current_report st)) as [response ->].
    cbn [List.length]. lia.
Qed.

(** X12.  A successful analysis replaces the report as a whole: the next
    question is answered from the new report, whatever report and
    messages the session held before, and the log gains the analysis
    request, the completion message, the question and its answer, in
    that order. *)
Theorem analysis_then_question (file_name user_input : string)
    (report : Report) (st : SessionState) :
  String.eqb user_input "" = false ->
  exists response,
    generate_response user_input (Some report) = Ok response
    /\ chat_turn user_input
         (fst (analyze_document file_name (Analyzed report) st))
       = Ok {| messages :=
                 messages st
                 ++ [ {| role := user; content := "Analyze " ++ file_name |};
                      {| role := assistant;
                         content := format_analysis_results report |};
                      {| role := user; content := user_input |};
                      {| role := assistant; content := response |} ];
               current_report := Some report;
               uploaded_file_name := Some file_name |}.
Proof.
  intros Hne.
  destruct (generate_response_returns user_input (Some report)) as [response Hr].
  exists response. split; [exact Hr |].
  rewrite chat_turn_log. unfold analyze_document, append_message.
  cbn [fst messages current_report uploaded_file_name].
  unfold turn_log. rewrite Hne, Hr. now rewrite <- !app_assoc.
Qed.

(** ** The sidebar's parameter panel *)






(** ** The session as a whole *)

Lemma exchanges_app (first second : list (string * string)) :
  exchanges (first ++ second) = (exchanges first ++ exchanges second)%list.
Proof. unfold exchanges. apply flat_map_app. Qed.

Lemma turn_log_is_ask_exchange (report : option Report) (user_input : string) :
  turn_log report user_input = exchanges (ask_exchange report user_input).
Proof.
  unfold turn_log, ask_exchange. destruct (String.eqb user_input "");
    [reflexivity |].
  now destruct (generate_response user_input report).
Qed.

Lemma ask_exchange_answers (report : option Report) (user_input : string) :
  String.eqb user_input "" = false ->
  exists answer,
    generate_response user_input report = Ok answer
    /\ ask_exchange report user_input = [(user_input, answer)].
Proof.
  intros Hne. unfold ask_exchange. rewrite Hne.
  destruct (generate_response_returns user_input report) as [answer Hanswer].
  exists answer. now rewrite Hanswer.
Qed.

Lemma handle_follows_event (event : Event) (st : SessionState) :
  handle event st
  = Ok {| messages :=
            messages st ++ exchanges (event_exchanges (current_report st) [event]);
          current_report := report_after (current_report st) [event];
          uploaded_file_name := file_name_after (uploaded_file_name st) [event] |}.
Proof.
  destruct event as [user_input | file_name [report | text]];
    cbn [handle event_exchanges report_after file_name_after].
  - rewrite chat_turn_log, turn_log_is_ask_exchange, app_nil_r. reflexivity.
  - unfold analyze_document, append_message.
    cbn [fst messages current_report uploaded_file_name exchanges flat_map].
    now rewrite <- !app_assoc.
  - unfold analyze_document. cbn [fst exchanges flat_map].
    now rewrite app_nil_r.
Qed.

(** X14.  After any sequence of chat questions and analysis runs the
    session has not failed and its log, report and file name are exactly
    these.  The log is the one before followed, in the order of the
    events, by one pair of messages per event that has an answer: for a
    non-empty question, the question as typed and the answer
    [generate_response] gives it on the report current at that moment;
    for a successful analysis, the request naming the file and the
    completion message of its report; nothing for an empty question or a
    failed analysis.  The report is the one of the last successful
    analysis and the file name the one of the last analysis run.  From
    the initial session the log is the greeting followed by these pairs. *)
Theorem session_log_follows_events (events : list Event) (st : SessionState) :
  run_events events st
  = Ok {| messages :=
            messages st ++ exchanges (event_exchanges (current_report st) events);
          current_report := report_after (current_report st) events;
          uploaded_file_name := file_name_after (uploaded_file_name st) events |}
  /\ List.length (event_exchanges (current_report st) events)
     = List.length (filter has_answer events)
  /\ (forall before after user_input,
        events = (before ++ Ask user_input :: after)%list ->
        String.eqb user_input "" = false ->
        exists answer,
          generate_response user_input
            (report_after (current_report st) before)
          = Ok answer
          /\ event_exchanges (current_report st) events
             = (event_exchanges (current_report st) before
                ++ (user_input, answer)
                   :: event_exchanges (report_after (current_report st) before)
                        after)%list)
  /\ run_events events initial_session
     = Ok {| messages :=
               {| role := assistant; content := greeting |}
               :: exchanges (event_exchanges None events);
             current_report := report_after None events;
             uploaded_file_name := file_name_after None events |}.
Proof.
  assert (Hrun : forall events st,
             run_events events st
             = Ok {| messages :=
                       messages st
                       ++ exchanges (event_exchanges (current_report st) events);
                     current_report := report_after (current_report st) events;
                     uploaded_file_name :=
                       file_name_after (uploaded_file_name st) events |}).
  { clear events st. induction events as [|event rest IH]; intros st.
    - cbn [run_events event_exchanges report_after file_name_after exchanges
           flat_map]. rewrite app_nil_r. now destruct st.
    - cbn [run_events]. rewrite handle_follows_event. cbn [bind].
      rewrite IH. cbn [messages current_report uploaded_file_name].
      rewrite <- app_assoc, <- exchanges_app.
      destruct event as [user_input | file_name [report | text]];
        cbn [event_exchanges report_after file_name_after app];
        rewrite ?app_nil_r; reflexivity. }
  split; [apply Hrun |]. split; [| split; [| apply Hrun]].
  - generalize (current_report st) as report.
    induction events as [|event rest IH]; intros report; [reflexivity |].
    destruct event as [user_input | file_name [r | text]];
      cbn [event_exchanges filter has_answer].
    + rewrite length_app, IH. unfold ask_exchange.
      destruct (String.eqb user_input ""); cbn [negb]; [reflexivity |].
      destruct (generate_response_returns user_input report) as [answer ->].
      reflexivity.
    + cbn [List.length]. now rewrite IH.
    + apply IH.
  - intros before after user_input -> Hne.
    generalize (current_report st) as report.
    induction before as [|event before IH]; intros report.
    + cbn [app event_exchanges report_after].
      destruct (ask_exchange_answers report user_input Hne)
        as (answer & Hanswer & Hpair).
      exists answer. now rewrite Hpair.
    + destruct event as [asked | file_name [r | text]];
        cbn [app event_exchanges report_after].
      * destruct (IH report) as (answer & Hanswer & Hlog).
        exists answer. split; [exact Hanswer |].
        now rewrite Hlog, <- app_assoc.
      * destruct (IH (Some r)) as (answer & Hanswer & Hlog).
        exists answer. split; [exact Hanswer |]. now rewrite Hlog.
      * apply IH.
Qed.

(** X15.  The sidebar's nodal panel draws nothing exactly when there is no
    successful nodal analysis to show (no report, or a failed analysis,
    whose message it does not show), and five widgets otherwise. *)
Theorem sidebar_nodal_panel_needs_success (st : SessionState) :
  (Sidebar.show_nodal_results st = []
   <-> forall report results,
         current_report st = Some report ->
         nodal_analysis_results report = NodalSuccess results -> False)
  /\ (Sidebar.show_nodal_results st = []
      \/ List.length (Sidebar.show_nodal_results st) = 5%nat).
Proof.
  unfold Sidebar.show_nodal_results.
  destruct (current_report st) as [report|].
  - destruct (nodal_analysis_results report) as [results | message] eqn:Hnodal.
    + split; [| now right]. split; [discriminate |].
      intros H. destruct (H report results eq_refl Hnodal).
    + split; [| now left]. split; [| reflexivity].
      intros _ report' results H. injection H as <-. congruence.
  - split; [| now left]. split; [| reflexivity]. discriminate.
Qed.

(** X16.  An empty summary is handled in three ways: the completion
    message leaves the summary section out, the chat's summary answer is
    the bare heading, and the sidebar draws its heading over an empty
    text. *)
Theorem empty_summary_renderings (report : Report) (st : SessionState) :
  summary report = "" ->
  current_report st = Some report ->
  format_analysis_results report
  = analysis_banner
    ++ well_section (extracted_parameters report)
    ++ nodal_section (nodal_analysis_results report)
    ++ analysis_hint
  /\ show_summary report = "### 📝 Document Summary" ++ nl ++ nl
  /\ Sidebar.show_summary st
     = [ (None, Subheader "📝 Executive Summary"); (None, Write "") ].
Proof.
  intros Hsummary Hreport. rewrite completion_message_sections.
  unfold show_summary, Sidebar.show_summary. rewrite Hreport, Hsummary.
  cbn [summary_section String.eqb]. rewrite append_empty_r.
  repeat split; reflexivity.
Qed.

End DialogueCore.

(** ** The theorems at concrete inputs *)

(** Utterances and reports on which the model is run, with [str.lower]
    and [str.title] restricted to ASCII text. *)

Lemma report_priority_first_match_witness :
  classify ascii_lower "Give me the NODAL summary" true = ShowNodalDetails
  /\ generate_response ascii_lower ascii_title "Give me the NODAL summary"
       (Some sample_report)
     = Ok (show_nodal_details (NodalSuccess sample_results))
  /\ classify ascii_lower "any problem with the flow?" true = ShowNodalDetails.
Proof.
  destruct (report_priority_first_match ascii_lower ascii_title
              "Give me the NODAL summary" sample_report) as [_ Hpair].
  destruct (Hpair eq_refl eq_refl) as [Hnodal _].
  destruct (Hnodal eq_refl) as [Hc Hr].
  destruct (report_priority_first_match ascii_lower ascii_title
              "any problem with the flow?" sample_report) as [Hfirst _].
  split; [exact Hc |]. split; [exact Hr |].
  refine (proj1 (Hfirst [(["parameter"; "extract"; "data"], ShowParameters)]
                [(["summary"; "overview"], ShowSummary);
                 (["increase"; "optimize"; "improve"], OptimizationAdvice);
                 (["limit"; "bottleneck"; "problem"], LimitationAnalysis)]
                ["nodal"; "pressure"; "flow"] ShowNodalDetails _ _ _)).
  - reflexivity.
  - repeat constructor.
  - reflexivity.
Defined.

(** C1 as stated fails: an utterance containing "nodal" and "summary"
    that also contains "data" is answered with the parameters. *)
Lemma nodal_summary_with_data_shows_parameters :
  contains "nodal" (ascii_lower "Compare the nodal data with the summary") = true
  /\ contains "summary" (ascii_lower "Compare the nodal data with the summary")
     = true
  /\ classify ascii_lower "Compare the nodal data with the summary" true
     = ShowParameters
  /\ ShowParameters <> ShowNodalDetails
  /\ generate_response ascii_lower ascii_title
       "Compare the nodal data with the summary" (Some sample_report)
     = Ok ("### 📋 Extracted Parameters" ++ nl ++ nl
           ++ "- **Well Name:** A-12" ++ nl).
Proof.
  repeat split; try reflexivity. discriminate.
Qed.

Lemma limitation_percentages_guarded_witness :
  pressure_drop_breakdown (pressure_analysis (results_at 40.5%float 0%float))
  = Ok (0%float, 0%float)
  /\ identify_limitations ascii_lower (results_at 40.5%float 0%float)
     = Ok (limitations_message ascii_lower
             (pressure_analysis (results_at 40.5%float 0%float))
             (flow_characteristics (results_at 40.5%float 0%float))
             0%float 0%float)
  /\ format_1f 0%float = "0.0"
  /\ pressure_drop_breakdown (pressure_analysis sample_results)
     = Ok ((150 / 168.25 * 100)%float, (18.25 / 168.25 * 100)%float)
  /\ format_1f (150 / 168.25 * 100)%float = "89.2"
  /\ format_1f (18.25 / 168.25 * 100)%float = "10.8".
Proof.
  destruct (limitation_percentages_guarded ascii_lower
              (results_at 40.5%float 0%float)) as (Hzero & _ & _).
  destruct (Hzero eq_refl) as [Hpcts Hmsg].
  destruct (limitation_percentages_guarded ascii_lower sample_results)
    as (_ & Hnonzero & _).
  destruct (Hnonzero eq_refl) as [Hpcts' _].
  split; [exact Hpcts |]. split; [exact Hmsg |].
  split; [vm_compute; reflexivity |]. split; [exact Hpcts' |].
  split; vm_compute; reflexivity.
Defined.


Lemma help_keywords_first_witness :
  classify ascii_lower "SHOW me the extracted parameters" false
  = HelpGettingStarted
  /\ generate_response ascii_lower ascii_title
       "SHOW me the extracted parameters" None
     = Ok help_getting_started
  /\ generate_response ascii_lower ascii_title
       "show ME the extracted parameters" None
     = Ok help_getting_started.
Proof.
  destruct (help_keywords_first ascii_lower ascii_title
              "SHOW me the extracted parameters" "how"
              "s" " me the extracted parameters") as (Hc & Hr & Hsame).
  - right. left. reflexivity.
  - reflexivity.
  - split; [exact Hc |]. split; [exact Hr |].
    exact (proj2 (Hsame "show ME the extracted parameters" eq_refl)).
Defined.

Lemma failure_status_responses_witness :
  generate_response ascii_lower ascii_title "nodal results?" (Some failed_report)
  = Ok ("⚠️ Nodal analysis was incomplete: " ++ "Missing tubing data")
  /\ generate_response ascii_lower ascii_title "how to improve?"
       (Some failed_report)
     = Ok "I need successful nodal analysis results to provide optimization advice."
  /\ generate_response ascii_lower ascii_title "any bottleneck?"
       (Some failed_report)
     = Ok "I need successful nodal analysis results to identify limitations.".
Proof.
  destruct (failure_status_responses ascii_lower ascii_title failed_report
              "Missing tubing data" eq_refl) as (Hnodal & Hadvice & Hlimit & _).
  split; [exact (Hnodal "nodal results?" eq_refl) |].
  split; [exact (Hadvice "how to improve?" eq_refl) |].
  exact (Hlimit "any bottleneck?" eq_refl).
Defined.


(** C7 as stated fails: two utterances that both get the needs-upload
    answer (and, with a report, both the fallback menu) get different
    texts, because each answer quotes its utterance. *)
Lemma echoed_utterance_differs :
  classify ascii_lower "hello" false = NeedsUpload
  /\ classify ascii_lower "thanks" false = NeedsUpload
  /\ generate_response ascii_lower ascii_title "hello" None
     <> generate_response ascii_lower ascii_title "thanks" None
  /\ classify ascii_lower "hello" true = FallbackMenu
  /\ classify ascii_lower "thanks" true = FallbackMenu
  /\ generate_response ascii_lower ascii_title "hello" (Some sample_report)
     <> generate_response ascii_lower ascii_title "thanks" (Some sample_report).
Proof.
  repeat split; try reflexivity; vm_compute; discriminate.
Qed.

Lemma echo_templates_witness :
  generate_response ascii_lower ascii_title "hello" None
  = Ok (echo_prefix ++ "hello" ++ needs_upload_suffix)
  /\ generate_response ascii_lower ascii_title "hello" (Some sample_report)
     = Ok (echo_prefix ++ "hello" ++ fallback_menu_suffix)
  /\ generate_response ascii_lower ascii_title "hello" (Some failed_report)
     = Ok (echo_prefix ++ "hello" ++ fallback_menu_suffix).
Proof.
  destruct (echo_templates ascii_lower ascii_title "hello")
    as (Hupload & Hmenu & _ & _).
  split; [exact (Hupload eq_refl) |].
  split; [exact (Hmenu eq_refl sample_report) |].
  exact (Hmenu eq_refl failed_report).
Defined.

Lemma generate_response_total_witness :
  generate_response ascii_lower ascii_title "good morning" None
  = Ok (needs_upload "good morning")
  /\ generate_response ascii_lower ascii_title "good morning" (Some sample_report)
     = Ok (fallback_menu "good morning").
Proof.
  destruct (generate_response_total ascii_lower ascii_title "good morning" None)
    as (_ & Hupload & Hmenu).
  split.
  - apply Hupload. repeat constructor.
  - apply Hmenu. repeat constructor.
Defined.


(** ** The further properties at concrete inputs *)

Lemma no_report_priority_first_match_witness :
  generate_response ascii_lower ascii_title
    "Which parameters feed the nodal analysis?" None
  = Ok explain_extraction
  /\ generate_response ascii_lower ascii_title "Please calculate it" None
     = Ok explain_nodal_analysis.
Proof.
  destruct (no_report_priority_first_match ascii_lower ascii_title
              "Which parameters feed the nodal analysis?")
    as (_ & Hextraction & _).
  destruct (no_report_priority_first_match ascii_lower ascii_title
              "Please calculate it") as (_ & _ & Hnodal).
  split; [exact (Hextraction eq_refl eq_refl) |].
  exact (Hnodal eq_refl eq_refl eq_refl).
Defined.

Lemma explained_extraction_becomes_parameters_witness :
  classify ascii_lower "What can you extract?" true = ShowParameters
  /\ generate_response ascii_lower ascii_title "What can you extract?"
       (Some sample_report)
     = Ok ("### 📋 Extracted Parameters" ++ nl ++ nl
           ++ "- **Well Name:** A-12" ++ nl).
Proof.
  exact (explained_extraction_becomes_parameters ascii_lower ascii_title
           "What can you extract?" eq_refl sample_report).
Defined.

Lemma answers_ignore_case_witness :
  generate_response ascii_lower ascii_title "SUMMARY please" (Some sample_report)
  = generate_response ascii_lower ascii_title "summary PLEASE" (Some sample_report).
Proof.
  destruct (answers_ignore_case ascii_lower ascii_title
              "SUMMARY please" "summary PLEASE" (Some sample_report) eq_refl)
    as [_ Hsame].
  apply Hsame. vm_compute. tauto.
Defined.

Lemma answers_read_their_part_only_witness :
  generate_response ascii_lower ascii_title "show the data" (Some sample_report)
  = generate_response ascii_lower ascii_title "show the data" (Some failed_report)
  /\ generate_response ascii_lower ascii_title "any bottleneck?"
       (Some failed_report)
     = generate_response ascii_lower ascii_title "any bottleneck?"
         (Some silent_report).
Proof.
  destruct (answers_read_their_part_only ascii_lower ascii_title
              "show the data" sample_report failed_report) as (Hparams & _).
  destruct (answers_read_their_part_only ascii_lower ascii_title
              "any bottleneck?" failed_report silent_report) as (_ & Hnodal & _).
  split; [exact (Hparams eq_refl eq_refl) |].
  apply Hnodal; [vm_compute; tauto | reflexivity].
Defined.

Lemma every_keyword_selects_its_intent_witness :
  classify ascii_lower "calculate" false = ExplainNodalAnalysis
  /\ classify ascii_lower "bottleneck" true = LimitationAnalysis.
Proof.
  assert (Hfixed : forall keyword,
             In keyword (flat_map fst (no_report_rules ++ report_rules)%list) ->
             ascii_lower keyword = keyword).
  { intros keyword Hin. simpl in Hin.
    repeat match goal with
           | H : _ \/ _ |- _ => destruct H
           | H : False |- _ => destruct H
           end; subst keyword; reflexivity. }
  destruct (every_keyword_selects_its_intent ascii_lower Hfixed)
    as [Habsent Hloaded].
  split.
  - apply (Habsent ["nodal"; "analysis"; "calculate"]); simpl; tauto.
  - apply (Hloaded ["limit"; "bottleneck"; "problem"]); simpl; tauto.
Defined.

Lemma zero_drop_limitations_text_witness :
  identify_limitations ascii_lower (results_at 40.5%float (-0)%float)
  = Ok ("### 🔍 Production Limitation Analysis" ++ nl ++ nl
        ++ "**Pressure Drop Breakdown:**" ++ nl
        ++ "- Hydrostatic: 0.0% (150.0 bar)" ++ nl
        ++ "- Friction: 0.0% (18.25 bar)" ++ nl ++ nl
        ++ "**Main Limiting Factors:**" ++ nl ++ nl
        ++ "🔹 **Hydrostatic head** - Natural limitation due to well depth" ++ nl
        ++ "🔹 **Wellhead pressure** - Surface equipment backpressure" ++ nl
        ++ "🔹 **Flow regime** - Currently turbulent" ++ nl ++ nl
        ++ "*The friction losses indicate tubing efficiency. Lower is better!*").
Proof.
  rewrite (zero_drop_limitations_text ascii_lower
             (results_at 40.5%float (-0)%float) eq_refl).
  vm_compute. reflexivity.
Defined.


Lemma no_truthy_parameter_heading_only_witness :
  show_parameters ascii_title (extracted_parameters silent_report)
  = "### 📋 Extracted Parameters" ++ nl ++ nl
  /\ show_parameters ascii_title [] = "### 📋 Extracted Parameters" ++ nl ++ nl.
Proof.
  split.
  - apply no_truthy_parameter_heading_only. repeat constructor.
  - apply no_truthy_parameter_heading_only. constructor.
Defined.

Lemma completion_message_frame_witness :
  format_analysis_results silent_report = analysis_banner ++ analysis_hint
  /\ format_analysis_results failed_report
     = analysis_banner ++ "**Well:** A-12" ++ nl ++ nl
       ++ "### 📝 Summary" ++ nl ++ nl ++ "Completion run without incident."
       ++ nl ++ nl ++ analysis_hint.
Proof.
  destruct (completion_message_frame silent_report) as (_ & _ & Hbare).
  destruct (completion_message_frame failed_report) as (_ & Hfailed & _).
  split; [exact (Hbare "Missing tubing data" eq_refl eq_refl eq_refl) |].
  exact (Hfailed "Missing tubing data" eq_refl).
Defined.

Lemma analysis_then_question_witness :
  chat_turn ascii_lower ascii_title "what is the summary?"
    (fst (analyze_document "well_A12.pdf" (Analyzed sample_report) silent_session))
  = Ok {| messages :=
            [ {| role := user; content := "Analyze well_A12.pdf" |};
              {| role := assistant;
                 content := format_analysis_results sample_report |};
              {| role := user; content := "what is the summary?" |};
              {| role := assistant;
                 content := "### 📝 Document Summary" ++ nl ++ nl
                            ++ "Completion run without incident." |} ];
          current_report := Some sample_report;
          uploaded_file_name := Some "well_A12.pdf" |}.
Proof.
  destruct (analysis_then_question ascii_lower ascii_title "well_A12.pdf"
              "what is the summary?" sample_report silent_session eq_refl)
    as (response & Hr & Hturn).
  assert (Hresponse : response
                      = "### 📝 Document Summary" ++ nl ++ nl
                        ++ "Completion run without incident.").
  { assert (H : Ok response
                = Ok ("### 📝 Document Summary" ++ nl ++ nl
                      ++ "Completion run without incident."))
      by (rewrite <- Hr; reflexivity).
    now injection H. }
  rewrite Hresponse in Hturn. exact Hturn.
Defined.


Lemma session_log_follows_events_witness :
  run_events ascii_lower ascii_title
    [ Ask "hello";
      Analyze "well_A12.pdf" (Analyzed sample_report);
      Ask "";
      Analyze "well_B7.pdf" (AnalysisError "unreadable file");
      Ask "what is the summary?" ]
    initial_session
  = Ok {| messages :=
            [ {| role := assistant; content := greeting |};
              {| role := user; content := "hello" |};
              {| role := assistant; content := needs_upload "hello" |};
              {| role := user; content := "Analyze well_A12.pdf" |};
              {| role := assistant;
                 content := format_analysis_results sample_report |};
              {| role := user; content := "what is the summary?" |};
              {| role := assistant;
                 content := "### 📝 Document Summary" ++ nl ++ nl
                            ++ "Completion run without incident." |} ];
          current_report := Some sample_report;
          uploaded_file_name := Some "well_B7.pdf" |}
  /\ generate_response ascii_lower ascii_title "what is the summary?"
       (Some sample_report)
     = Ok ("### 📝 Document Summary" ++ nl ++ nl
           ++ "Completion run without incident.").
Proof.
  destruct (session_log_follows_events ascii_lower ascii_title
              [ Ask "hello";
                Analyze "well_A12.pdf" (Analyzed sample_report);
                Ask "";
                Analyze "well_B7.pdf" (AnalysisError "unreadable file");
                Ask "what is the summary?" ]
              initial_session) as (_ & _ & Hasked & Hlog).
  split; [rewrite Hlog; reflexivity |].
  destruct (Hasked
              [ Ask "hello";
                Analyze "well_A12.pdf" (Analyzed sample_report);
                Ask "";
                Analyze "well_B7.pdf" (AnalysisError "unreadable file") ]
              [] "what is the summary?" eq_refl eq_refl)
    as (answer & Hanswer & _).
  reflexivity.
Defined.

Lemma sidebar_nodal_panel_needs_success_witness :
  Sidebar.show_nodal_results silent_session = []
  /\ Sidebar.show_nodal_results field_session
     = [ (None, Subheader "⚙️ Nodal Analysis Results");
         (Some 1%nat, Metric "Flow Rate" "40.5 m³/h");
         (Some 2%nat, Metric "WHP" "12.0 bar");
         (Some 3%nat, Metric "BHP" "180.25 bar");
         (Some 4%nat, Metric "Utilization" "40.5%") ].
Proof.
  destruct (sidebar_nodal_panel_needs_success silent_session) as [[_ Hempty] _].
  split; [| vm_compute; reflexivity].
  apply Hempty. intros report results Hreport Hnodal.
  injection Hreport as <-. discriminate.
Defined.

Lemma empty_summary_renderings_witness :
  format_analysis_results silent_report = analysis_banner ++ analysis_hint
  /\ show_summary silent_report = "### 📝 Document Summary" ++ nl ++ nl
  /\ Sidebar.show_summary silent_session
     = [ (None, Subheader "📝 Executive Summary"); (None, Write "") ].
Proof.
  exact (empty_summary_renderings silent_report silent_session eq_refl eq_refl).
Defined.
